(** * A shallow embedding of the geospatial dashboard [app.py]

    The dashboard has two sections.  The roads section buffers the major
    roads by a slider distance and reports the settlements inside the
    dissolved buffer; the ports section buffers the large settlements and
    reports the ports inside.  Each section is one Dash callback,
    [update_roads_section] and [update_ports_section].

    Geometry (geopandas / shapely), number formatting and rendering are
    external collaborators of the program: they enter the development as
    the interfaces [GeoEngine] and [Formatter], and figures are plain data
    describing the plotly calls the callbacks make. *)

From Stdlib Require Import ZArith QArith List Bool Lia.
From stdpp Require Import base strings pretty gmap list.

Local Open Scope Z_scope.
Local Open Scope string_scope.

(** ** Python values that travel through [relayoutData] and the layout *)

(** [relayoutData] is the JSON object the map widget echoes back; the
    callbacks only look keys up in it and pass the values on.  [C] is the
    type of floating-point ordinates. *)
#[warnings="-register-all"]
Inductive pyval (C : Type) : Type :=
| PyInt (z : Z)
| PyFloat (x : C)
| PyStr (s : string)
| PyDict (kv : list (string * pyval C)).
Arguments PyInt {C} z.
Arguments PyFloat {C} x.
Arguments PyStr {C} s.
Arguments PyDict {C} kv.

(** Exceptions the callbacks can raise. *)
Inductive exn : Type :=
| KeyError (key : string).

Inductive result (A : Type) : Type :=
| Ok (a : A)
| Raise (e : exn).
Arguments Ok {A} a.
Arguments Raise {A} e.

(** [d[k]] on a Python dict. *)
Definition getitem {C : Type} (d : gmap string (pyval C)) (k : string)
  : result (pyval C) :=
  match d !! k with
  | Some v => Ok v
  | None => Raise (KeyError k)
  end.

#[global] Instance result_bind : MBind result := fun A B k r =>
  match r with
  | Ok a => k a
  | Raise e => Raise e
  end.

#[global] Instance result_ret : MRet result := fun A a => Ok a.

(** Truthiness of the [relayout_data] argument: [None] and the empty dict
    are falsy. *)
Definition truthy {C : Type} (rl : option (gmap string (pyval C))) : bool :=
  match rl with
  | None => false
  | Some m => negb (bool_decide (m = ∅))
  end.

(** ** Figures *)

Record Marker : Type := {
  marker_size : Z;
  marker_color : string;
  marker_opacity : option Q;
  marker_symbol : option string
}.

Record Margin : Type := { margin_r : Z; margin_t : Z; margin_l : Z; margin_b : Z }.

Record Legend : Type := {
  yanchor : string; legend_y : Q;
  xanchor : string; legend_x : Q;
  bgcolor : string; font_color : string
}.

Record Subplots : Type := {
  rows : Z; cols : Z;
  subplot_titles : list string;
  vertical_spacing : Q
}.

(** The traces the callbacks create, with the keyword arguments they pass.
    [G] is the type of GeoJSON documents. *)
Inductive Trace (C G : Type) : Type :=
| Choroplethmapbox (geojson : G) (locations : list Z) (z : list Z)
    (colorscale : list (Z * string)) (showscale : bool)
    (marker_line_width : Z) (marker_line_color : string) (name : string)
| Scattermapbox (lat lon : list C) (mode : string) (marker : Marker)
    (text : option (list string)) (hoverinfo : string) (name : string)
| Bar (x : list string) (y : list Z) (bar_marker_color : list string)
    (name : string) (cell : option (Z * Z)).
Arguments Choroplethmapbox {C G}.
Arguments Scattermapbox {C G}.
Arguments Bar {C G}.

Definition trace_name {C G : Type} (t : Trace C G) : string :=
  match t with
  | Choroplethmapbox _ _ _ _ _ _ _ n => n
  | Scattermapbox _ _ _ _ _ _ n => n
  | Bar _ _ _ n _ => n
  end.

Record Layout (C : Type) : Type := {
  template : option string;
  title_text : option string;
  showlegend : option bool;
  mapbox_style : option string;
  mapbox_zoom : option (pyval C);
  mapbox_center : option (pyval C);
  margin : option Margin;
  legend : option Legend;
  subplots : option Subplots
}.
Arguments template {C}.
Arguments title_text {C}.
Arguments showlegend {C}.
Arguments mapbox_style {C}.
Arguments mapbox_zoom {C}.
Arguments mapbox_center {C}.
Arguments margin {C}.
Arguments legend {C}.
Arguments subplots {C}.

Record Figure (C G : Type) : Type := {
  data : list (Trace C G);
  layout : Layout C
}.
Arguments data {C G}.
Arguments layout {C G}.

Section Plotly.
Context {C G : Type}.

Definition empty_layout : Layout C :=
  {| template := None; title_text := None; showlegend := None;
     mapbox_style := None; mapbox_zoom := None; mapbox_center := None;
     margin := None; legend := None; subplots := None |}.

(** [go.Figure()] *)
Definition go_Figure : Figure C G := {| data := []; layout := empty_layout |}.

(** [make_subplots(rows=, cols=, subplot_titles=, vertical_spacing=)] *)
Definition make_subplots (s : Subplots) : Figure C G :=
  {| data := [];
     layout := {| template := None; title_text := None; showlegend := None;
                  mapbox_style := None; mapbox_zoom := None;
                  mapbox_center := None; margin := None; legend := None;
                  subplots := Some s |} |}.

(** [fig.add_trace(t)]: traces are drawn in the order they were added. *)
Definition add_trace (fig : Figure C G) (t : Trace C G) : Figure C G :=
  {| data := data fig ++ [t]; layout := layout fig |}.

(** [fig.update_layout] with keyword arguments [kw]: the keywords given
    overwrite the layout, the others stay. *)
Definition update_layout (fig : Figure C G) (kw : Layout C) : Figure C G :=
  let old := layout fig in
  let pick {A} (new cur : option A) : option A :=
    match new with Some v => Some v | None => cur end in
  {| data := data fig;
     layout :=
       {| template := pick (template kw) (template old);
          title_text := pick (title_text kw) (title_text old);
          showlegend := pick (showlegend kw) (showlegend old);
          mapbox_style := pick (mapbox_style kw) (mapbox_style old);
          mapbox_zoom := pick (mapbox_zoom kw) (mapbox_zoom old);
          mapbox_center := pick (mapbox_center kw) (mapbox_center old);
          margin := pick (margin kw) (margin old);
          legend := pick (legend kw) (legend old);
          subplots := pick (subplots kw) (subplots old) |} |}.
(** [go.Figure().update_layout(template="plotly_dark", title_text="Error")],
    the figure both callbacks return for the map and the chart when the
    data did not load. *)
Definition error_fig : Figure C G :=
  update_layout go_Figure
    {| template := Some "plotly_dark"; title_text := Some "Error";
       showlegend := None; mapbox_style := None; mapbox_zoom := None;
       mapbox_center := None; margin := None; legend := None;
       subplots := None |}.
End Plotly.

(** ** 64-bit integers of a pandas integer column *)

Definition wrap64 (z : Z) : Z := (z + 2 ^ 63) mod 2 ^ 64 - 2 ^ 63.

Definition add64 (a b : Z) : Z := wrap64 (a + b).
Definition sub64 (a b : Z) : Z := wrap64 (a - b).

(** [Series.sum()] of an [int64] column: the accumulator wraps. *)
Definition sum64 (col : list Z) : Z := fold_left add64 col 0.

(** ** The geometry engine and the formatter *)

(** What the program asks of geopandas / shapely.  Distances are the
    integer slider values, in metres of the projected reference system. *)
Record GeoEngine : Type := {
  coord : Type;
  geom : Type;
  geojson : Type;
  points_from_xy : coord -> coord -> geom;
  buffer : geom -> Z -> geom;
  union_all : list geom -> geom;
  within : geom -> geom -> bool;
  to_crs_4326 : geom -> geom;
  centroid : geom -> geom;
  geom_x : geom -> coord;
  geom_y : geom -> coord;
  geo_interface : list geom -> geojson
}.

(** Python string formatting of the two titles. *)
Record Formatter : Type := {
  (** [f"{n}"] *)
  format_int : Z -> string;
  (** [f"{n:,.0f}"] *)
  format_thousands_0f : Z -> string;
  (** [f"{n/1000:,.1f}"] *)
  format_km_1f : Z -> string
}.

(** ** Data frames *)

(** A row of a [GeoDataFrame]: the attribute columns and the geometry. *)
Record GeoRow (A Gm : Type) : Type := { attrs : A; geometry : Gm }.
Arguments attrs {A Gm}.
Arguments geometry {A Gm}.

Record Road : Type := { KOD : Z }.

Record Settlement (C : Type) : Type := {
  NAZIV_NAS : string;
  BR_ST_01 : Z;
  naselja_EASTING : C;
  naselja_NORTHING : C
}.
Arguments NAZIV_NAS {C}.
Arguments BR_ST_01 {C}.
Arguments naselja_EASTING {C}.
Arguments naselja_NORTHING {C}.

Record Port (C : Type) : Type := {
  NAZIV : string;
  m_luke_EASTING : C;
  m_luke_NORTHING : C
}.
Arguments NAZIV {C}.
Arguments m_luke_EASTING {C}.
Arguments m_luke_NORTHING {C}.

Section Frames.
Context (E : GeoEngine).

Definition GeoDataFrame (A : Type) : Type := list (GeoRow A (geom E)).

(** [gdf.to_crs(epsg=4326)] *)
Definition to_crs {A : Type} (gdf : GeoDataFrame A) : GeoDataFrame A :=
  map (fun r => {| attrs := attrs r; geometry := to_crs_4326 E (geometry r) |}) gdf.

(** [gpd.sjoin(left, right, how='inner', predicate='within')]: one output
    row per pair of a left row and a right row the left geometry is within,
    ordered by the left row and then by the right row.  The output row
    carries the left row's columns; the added [index_right] column is
    read nowhere and is left out. *)
Definition sjoin {A B : Type} (left : GeoDataFrame A) (right : GeoDataFrame B)
  : GeoDataFrame A :=
  flat_map
    (fun l => map (fun _ => l)
                (List.filter (fun r => within E (geometry l) (geometry r)) right))
    left.

(** [df.drop_duplicates(subset=[key])], with pandas' default
    [keep='first']: a row is dropped when an earlier row of the frame has
    the same key. *)
Fixpoint drop_duplicates_seen {A : Type} (key : A -> string)
    (seen : list string) (df : GeoDataFrame A) : GeoDataFrame A :=
  match df with
  | [] => []
  | r :: rest =>
      if bool_decide (key (attrs r) ∈ seen)
      then drop_duplicates_seen key seen rest
      else r :: drop_duplicates_seen key (key (attrs r) :: seen) rest
  end.

Definition drop_duplicates {A : Type} (key : A -> string)
    (df : GeoDataFrame A) : GeoDataFrame A :=
  drop_duplicates_seen key [] df.

(** [len(df)] *)
Definition len {A : Type} (df : list A) : Z := Z.of_nat (length df).
End Frames.
Arguments GeoDataFrame E A : clear implicits.
Arguments to_crs {E A}.
Arguments sjoin {E A B}.
Arguments drop_duplicates_seen {E A}.
Arguments drop_duplicates {E A}.

(** ** The dataset store *)

(** The three files read at start-up: [ROADS.shp], [naselja.csv] and
    [m_luke.csv]. *)
Record Bundle (E : GeoEngine) : Type := {
  ROADS : GeoDataFrame E Road;
  naselja : list (Settlement (coord E));
  m_luke : list (Port (coord E))
}.
Arguments ROADS {E}.
Arguments naselja {E}.
Arguments m_luke {E}.

Section Derived.
Context {E : GeoEngine} (b : Bundle E).

Definition naselja_gdf : GeoDataFrame E (Settlement (coord E)) :=
  map (fun s => {| attrs := s;
                   geometry := points_from_xy E (naselja_EASTING s) (naselja_NORTHING s) |})
      (naselja b).

Definition m_luke_gdf : GeoDataFrame E (Port (coord E)) :=
  map (fun p => {| attrs := p;
                   geometry := points_from_xy E (m_luke_EASTING p) (m_luke_NORTHING p) |})
      (m_luke b).

Definition AID : GeoDataFrame E Road :=
  List.filter (fun r => (KOD (attrs r) =? 1)%Z || (KOD (attrs r) =? 3)%Z) (ROADS b).

Definition large_settlements : GeoDataFrame E (Settlement (coord E)) :=
  List.filter (fun r => (10000 <? BR_ST_01 (attrs r))%Z) naselja_gdf.

Definition naselja_wgs84 := to_crs naselja_gdf.
Definition m_luke_wgs84 := to_crs m_luke_gdf.
Definition large_settlements_wgs84 := to_crs large_settlements.

Definition map_center_lon : coord E :=
  geom_x E (centroid E (union_all E (map geometry (to_crs AID)))).
Definition map_center_lat : coord E :=
  geom_y E (centroid E (union_all E (map geometry (to_crs AID)))).
End Derived.

(** The module state after the [try] block: either the data, or, when a
    [FileNotFoundError] was caught, the name of the file that was not
    found.  [DATA_LOADED_SUCCESSFULLY] is the flag the callbacks test; they
    read the data or the message according to it. *)
Inductive Store (E : GeoEngine) : Type :=
| Loaded (b : Bundle E)
| LoadFailed (filename : string).
Arguments Loaded {E} b.
Arguments LoadFailed {E} filename.

Definition DATA_LOADED_SUCCESSFULLY {E : GeoEngine} (st : Store E) : bool :=
  match st with
  | Loaded _ => true
  | LoadFailed _ => false
  end.

Definition ERROR_MESSAGE (filename : string) : string :=
  "Error: Could not load data file '" ++ filename
  ++ "'. Make sure all data files are in the same directory.".

(** ** What the two callbacks share *)

Section Shared.
Context {E : GeoEngine}.

Definition figure : Type := Figure (coord E) (geojson E).
Definition relayout : Type := option (gmap string (pyval (coord E))).

(** The zoom and centre of the map:
<<
  zoom, center = (6, {"lat": map_center_lat, "lon": map_center_lon})
  if relayout_data and 'mapbox.zoom' in relayout_data:
      zoom, center = relayout_data['mapbox.zoom'], relayout_data['mapbox.center']
>>  *)
Definition viewport (b : Bundle E) (relayout_data : relayout)
  : result (pyval (coord E) * pyval (coord E)) :=
  let default :=
    (PyInt 6, PyDict [("lat", PyFloat (map_center_lat b));
                      ("lon", PyFloat (map_center_lon b))]) in
  match relayout_data with
  | Some m =>
      if truthy relayout_data && bool_decide (is_Some (m !! "mapbox.zoom"))
      then zoom ← getitem m "mapbox.zoom";
           center ← getitem m "mapbox.center";
           mret (zoom, center)
      else mret default
  | None => mret default
  end.

(** The layout both maps get. *)
Definition map_layout (zoom center : pyval (coord E)) : Layout (coord E) :=
  {| template := Some "plotly_dark"; title_text := None; showlegend := None;
     mapbox_style := Some "carto-darkmatter";
     mapbox_zoom := Some zoom; mapbox_center := Some center;
     margin := Some {| margin_r := 0; margin_t := 0; margin_l := 0; margin_b := 0 |};
     legend := Some {| yanchor := "top"; legend_y := 0.99; xanchor := "left";
                       legend_x := 0.01; bgcolor := "rgba(0,0,0,0.5)";
                       font_color := "white" |};
     subplots := None |}.

(** The layout both bar charts get. *)
Definition chart_layout (title : string) : Layout (coord E) :=
  {| template := Some "plotly_dark"; title_text := Some title;
     showlegend := Some false; mapbox_style := None; mapbox_zoom := None;
     mapbox_center := None;
     margin := Some {| margin_r := 20; margin_t := 40; margin_l := 20; margin_b := 20 |};
     legend := None; subplots := None |}.
End Shared.
Arguments figure E : clear implicits.
Arguments relayout E : clear implicits.

(** ** Section 1: settlements near the major roads *)

Module Roads.
Section Analysis.
Context {E : GeoEngine} (F : Formatter) (b : Bundle E) (buffer_distance : Z).

(** Geospatial analysis *)
Definition buffer_polygons : list (geom E) :=
  map (fun r => buffer E (geometry r) buffer_distance) (AID b).
Definition dissolved_buffer : geom E := union_all E buffer_polygons.
Definition dissolved_gdf : GeoDataFrame E unit :=
  [ {| attrs := tt; geometry := dissolved_buffer |} ].
Definition selected_naselja : GeoDataFrame E (Settlement (coord E)) :=
  sjoin (naselja_gdf b) dissolved_gdf.

(** Bar chart calculations *)
Definition pop_in_buffer : Z :=
  sum64 (map (fun r => BR_ST_01 (attrs r)) selected_naselja).
Definition pop_out_buffer : Z :=
  sub64 (sum64 (map (fun r => BR_ST_01 (attrs r)) (naselja_gdf b))) pop_in_buffer.
Definition count_in_buffer : Z := len selected_naselja.
Definition count_out_buffer : Z := len (naselja_gdf b) - count_in_buffer.

(** Data for plotting *)
Definition buffer_wgs84 := to_crs dissolved_gdf.
Definition selected_wgs84 := to_crs selected_naselja.

(** The map, before its layout is set *)
Definition map_traces : figure E :=
  let map_fig := go_Figure in
  let map_fig := add_trace map_fig
    (Choroplethmapbox (geo_interface E (map geometry buffer_wgs84)) [0] [0]
       [(0, "rgba(0, 100, 255, 0.4)"); (1, "rgba(0, 100, 255, 0.4)")]
       false 1 "cyan" "Buffer Zone") in
  let map_fig := add_trace map_fig
    (Scattermapbox
       (map (fun r => geom_y E (geometry r)) (naselja_wgs84 b))
       (map (fun r => geom_x E (geometry r)) (naselja_wgs84 b))
       "markers"
       {| marker_size := 5; marker_color := "#7f7f7f";
          marker_opacity := Some 0.7%Q; marker_symbol := None |}
       None "none" "All Settlements") in
  add_trace map_fig
    (Scattermapbox
       (map (fun r => geom_y E (geometry r)) selected_wgs84)
       (map (fun r => geom_x E (geometry r)) selected_wgs84)
       "markers"
       {| marker_size := 8; marker_color := "yellow";
          marker_opacity := Some 0.9%Q; marker_symbol := None |}
       (Some (map (fun r => NAZIV_NAS (attrs r)) selected_wgs84))
       "text" "Selected Settlements").

(** The bar chart *)
Definition bar_fig : figure E :=
  let bar_fig := make_subplots
    {| rows := 2; cols := 1;
       subplot_titles := ["Population"; "Number of Settlements"];
       vertical_spacing := 0.15 |} in
  let bar_fig := add_trace bar_fig
    (Bar ["Inside"; "Outside"] [pop_in_buffer; pop_out_buffer]
       ["#FFC300"; "#581845"] "Population" (Some (1, 1))) in
  let bar_fig := add_trace bar_fig
    (Bar ["Inside"; "Outside"] [count_in_buffer; count_out_buffer]
       ["#DAF7A6"; "#900C3F"] "Settlements" (Some (2, 1))) in
  update_layout bar_fig (chart_layout "Data Summary").

Definition title_string : string :=
  "Population within " ++ format_int F buffer_distance ++ " meters: "
  ++ format_thousands_0f F pop_in_buffer.
End Analysis.
End Roads.

Definition update_roads_section {E : GeoEngine} (F : Formatter) (st : Store E)
    (buffer_distance : Z) (relayout_data : relayout E)
  : result (figure E * string * figure E) :=
  match st with
  | LoadFailed filename =>
      mret (error_fig, ERROR_MESSAGE filename, error_fig)
  | Loaded b =>
      '(zoom, center) ← viewport b relayout_data;
      let map_fig :=
        update_layout (Roads.map_traces b buffer_distance) (map_layout zoom center) in
      mret (map_fig, Roads.title_string F b buffer_distance,
            Roads.bar_fig b buffer_distance)
  end.

(** ** Section 2: ports near the large settlements *)

Module Ports.
Section Analysis.
Context {E : GeoEngine} (F : Formatter) (b : Bundle E) (buffer_distance : Z).

(** Geospatial analysis *)
Definition buffer_polygons : list (geom E) :=
  map (fun r => buffer E (geometry r) buffer_distance) (large_settlements b).
Definition dissolved_buffer : geom E := union_all E buffer_polygons.
Definition dissolved_gdf : GeoDataFrame E unit :=
  [ {| attrs := tt; geometry := dissolved_buffer |} ].
(** the spatial join, before the duplicates are dropped *)
Definition joined_ports : GeoDataFrame E (Port (coord E)) :=
  sjoin (m_luke_gdf b) dissolved_gdf.
Definition selected_ports : GeoDataFrame E (Port (coord E)) :=
  drop_duplicates NAZIV joined_ports.

(** Bar chart calculations *)
Definition count_in_buffer : Z := len selected_ports.
Definition count_out_buffer : Z := len (m_luke_gdf b) - count_in_buffer.

(** Data for plotting *)
Definition buffer_wgs84 := to_crs dissolved_gdf.
Definition selected_ports_wgs84 := to_crs selected_ports.

(** The map, before its layout is set *)
Definition map_traces : figure E :=
  let map_fig := go_Figure in
  let map_fig := add_trace map_fig
    (Choroplethmapbox (geo_interface E (map geometry buffer_wgs84)) [0] [0]
       [(0, "rgba(255, 0, 100, 0.4)"); (1, "rgba(255, 0, 100, 0.4)")]
       false 1 "magenta" "Buffer Zone") in
  let map_fig := add_trace map_fig
    (Scattermapbox
       (map (fun r => geom_y E (geometry r)) (large_settlements_wgs84 b))
       (map (fun r => geom_x E (geometry r)) (large_settlements_wgs84 b))
       "markers"
       {| marker_size := 10; marker_color := "cyan";
          marker_opacity := None; marker_symbol := Some "star" |}
       (Some (map (fun r => NAZIV_NAS (attrs r)) (large_settlements_wgs84 b)))
       "text" "Large Settlements (>10k)") in
  let map_fig := add_trace map_fig
    (Scattermapbox
       (map (fun r => geom_y E (geometry r)) (m_luke_wgs84 b))
       (map (fun r => geom_x E (geometry r)) (m_luke_wgs84 b))
       "markers"
       {| marker_size := 5; marker_color := "#7f7f7f";
          marker_opacity := Some 0.7%Q; marker_symbol := None |}
       None "none" "All Ports") in
  add_trace map_fig
    (Scattermapbox
       (map (fun r => geom_y E (geometry r)) selected_ports_wgs84)
       (map (fun r => geom_x E (geometry r)) selected_ports_wgs84)
       "markers"
       {| marker_size := 8; marker_color := "lime";
          marker_opacity := Some 0.9%Q; marker_symbol := None |}
       (Some (map (fun r => NAZIV (attrs r)) selected_ports_wgs84))
       "text" "Selected Ports").

(** The bar chart *)
Definition bar_fig_ports : figure E :=
  let bar_fig_ports := go_Figure in
  let bar_fig_ports := add_trace bar_fig_ports
    (Bar ["Inside"; "Outside"] [count_in_buffer; count_out_buffer]
       ["#00CFE8"; "#630C3F"] "Ports" None) in
  update_layout bar_fig_ports (chart_layout "Ports Summary").

Definition title_string : string :=
  "Number of ports within " ++ format_km_1f F buffer_distance
  ++ " km of large settlements: " ++ format_int F count_in_buffer.
End Analysis.
End Ports.

Definition update_ports_section {E : GeoEngine} (F : Formatter) (st : Store E)
    (buffer_distance : Z) (relayout_data : relayout E)
  : result (figure E * string * figure E) :=
  match st with
  | LoadFailed filename =>
      mret (error_fig, ERROR_MESSAGE filename, error_fig)
  | Loaded b =>
      '(zoom, center) ← viewport b relayout_data;
      let map_fig :=
        update_layout (Ports.map_traces b buffer_distance) (map_layout zoom center) in
      mret (map_fig, Ports.title_string F b buffer_distance,
            Ports.bar_fig_ports b buffer_distance)
  end.

(** ** Notions the properties are stated with *)

(** The exact sum of a column. *)
Definition total (col : list Z) : Z := fold_right Z.add 0 col.

(** The row's geometry is within the zone. *)
Definition in_zone {E : GeoEngine} {A : Type} (zone : geom E)
    (r : GeoRow A (geom E)) : bool :=
  within E (geometry r) zone.

(** The row carries the given key value. *)
Definition has_key {E : GeoEngine} {A : Type} (key : A -> string) (n : string)
    (r : GeoRow A (geom E)) : bool :=
  bool_decide (key (attrs r) = n).

(** The guarantee asked of the geometry engine: the dissolved buffer of a
    larger radius contains the dissolved buffer of a smaller one. *)
Definition buffer_monotone (E : GeoEngine) : Prop :=
  forall (gs : list (geom E)) (d1 d2 : Z) (p : geom E),
    0 <= d1 -> d1 <= d2 ->
    within E p (union_all E (map (fun g => buffer E g d1) gs)) = true ->
    within E p (union_all E (map (fun g => buffer E g d2) gs)) = true.

(** The default view: zoom 6, centred on the centroid of the filtered road
    network. *)
Definition default_view {E : GeoEngine} (b : Bundle E)
  : pyval (coord E) * pyval (coord E) :=
  (PyInt 6, PyDict [("lat", PyFloat (map_center_lat b));
                    ("lon", PyFloat (map_center_lon b))]).

(** The zoom and centre a relayout value supplies, when it carries both. *)
Definition supplied_view {E : GeoEngine} (rl : relayout E)
  : option (pyval (coord E) * pyval (coord E)) :=
  match rl with
  | Some m =>
      match m !! "mapbox.zoom", m !! "mapbox.center" with
      | Some zoom, Some center => Some (zoom, center)
      | _, _ => None
      end
  | None => None
  end.

(** A viewport echo carries the zoom together with the centre. *)
Definition view_complete {E : GeoEngine} (rl : relayout E) : Prop :=
  forall m, rl = Some m -> is_Some (m !! "mapbox.zoom") ->
            is_Some (m !! "mapbox.center").

(** The relayout value has no ['mapbox.zoom'] key. *)
Definition lacks_zoom {E : GeoEngine} (rl : relayout E) : Prop :=
  forall m, rl = Some m -> m !! "mapbox.zoom" = None.

(** The zoom and centre of a figure's layout. *)
Definition view_of {C G : Type} (fig : Figure C G)
  : option (pyval C) * option (pyval C) :=
  (mapbox_zoom (layout fig), mapbox_center (layout fig)).

(** The four kinds of map layer: the dissolved region, the full base point
    collection, a context point collection, the selected subset. *)
Inductive Layer : Type :=
| RegionLayer
| BaseLayer
| ContextLayer
| SelectedLayer.

(** The layer a trace draws, read off its styling: a choropleth is the
    filled region; markers without hover information are the low-emphasis
    base collection; markers with hover text are the context collection when
    they have a symbol of their own, and the selected subset otherwise. *)
Definition layer_of {C G : Type} (t : Trace C G) : option Layer :=
  match t with
  | Choroplethmapbox _ _ _ _ _ _ _ _ => Some RegionLayer
  | Scattermapbox _ _ _ marker _ hoverinfo _ =>
      if String.eqb hoverinfo "none" then Some BaseLayer
      else match marker_symbol marker with
           | Some _ => Some ContextLayer
           | None => Some SelectedLayer
           end
  | Bar _ _ _ _ _ => None
  end.

(** The values of the bar traces. *)
Definition bar_values {C G : Type} (t : Trace C G) : list Z :=
  match t with
  | Bar _ y _ _ _ => y
  | _ => []
  end.

(** The latitudes and longitudes a marker trace plots. *)
Definition plotted {C G : Type} (t : Trace C G) : option (list C * list C) :=
  match t with
  | Scattermapbox lat lon _ _ _ _ _ => Some (lat, lon)
  | _ => None
  end.

(** The latitudes and longitudes of the points of a frame. *)
Definition lat_lon {E : GeoEngine} {A : Type} (gdf : GeoDataFrame E A)
  : list (coord E) * list (coord E) :=
  (map (fun r => geom_y E (geometry r)) gdf, map (fun r => geom_x E (geometry r)) gdf).

(** ** A concrete engine on the integer plane

    Points have integer coordinates, a line is given by its vertices, and a
    region is a union of open discs.  Buffering grows every disc; a point is
    within a region when it is strictly inside one of its discs. *)

Module Plane.
Inductive shape : Type :=
| Pt (x y : Z)
| Line (vertices : list (Z * Z))
| Discs (ds : list (Z * Z * Z)).

Definition discs (s : shape) : list (Z * Z * Z) :=
  match s with
  | Pt x y => [(x, y, 0)]
  | Line vs => map (fun v => (fst v, snd v, 0)) vs
  | Discs ds => ds
  end.

Definition grow (d : Z) (c : Z * Z * Z) : Z * Z * Z :=
  (fst (fst c), snd (fst c), snd c + d).

Definition buffer (s : shape) (d : Z) : shape := Discs (map (grow d) (discs s)).

Definition union_all (ss : list shape) : shape := Discs (flat_map discs ss).

Definition inside (x y : Z) (c : Z * Z * Z) : bool :=
  (0 <? snd c)%Z
  && ((x - fst (fst c)) * (x - fst (fst c))
      + (y - snd (fst c)) * (y - snd (fst c)) <? snd c * snd c)%Z.

Definition within (p s : shape) : bool :=
  match p with
  | Pt x y => existsb (inside x y) (discs s)
  | _ => false
  end.

Definition centroid (s : shape) : shape :=
  match discs s with
  | [] => Pt 0 0
  | c :: _ => Pt (fst (fst c)) (snd (fst c))
  end.

Definition x (s : shape) : Z := match s with Pt a _ => a | _ => 0 end.
Definition y (s : shape) : Z := match s with Pt _ b => b | _ => 0 end.

Definition engine : GeoEngine :=
  Build_GeoEngine Z shape (list shape) Pt buffer union_all within
    (fun s => s) centroid x y (fun gs => gs).

(** Plain decimal digits, for the examples. *)
Definition formatter : Formatter :=
  {| format_int := pretty; format_thousands_0f := pretty;
     format_km_1f := fun n => pretty (n / 1000)%Z ++ "."
                              ++ pretty ((n `mod` 1000) / 100)%Z |}.
End Plane.

(** ** Example data *)

Module Demo.
Definition settlement (n : string) (pop x y : Z) : Settlement Z :=
  {| NAZIV_NAS := n; BR_ST_01 := pop; naselja_EASTING := x; naselja_NORTHING := y |}.
Definition port (n : string) (x y : Z) : Port Z :=
  {| NAZIV := n; m_luke_EASTING := x; m_luke_NORTHING := y |}.
Definition road (k : Z) (vs : list (Z * Z)) : GeoRow Road Plane.shape :=
  {| attrs := {| KOD := k |}; geometry := Plane.Line vs |}.

(** One motorway along the x axis, one local road far away; a town on the
    motorway, a village 300 m off it, a hamlet 5 km off; two harbour
    entries named "Marina X" next to the town and one distant port. *)
Definition bundle : Bundle Plane.engine :=
  Build_Bundle Plane.engine
    [ road 1 [(0, 0); (1000, 0)]; road 7 [(0, 9000)] ]
    [ settlement "Grad" 25000 0 0;
      settlement "Selo" 800 1000 300;
      settlement "Zaselak" 40 0 5000 ]
    [ port "Marina X" 100 0;
      port "Marina X" 0 200;
      port "Luka Y" 0 90000 ].

(** The same ports with a far-away "Marina X" entry listed first. *)
Definition bundle_far_first : Bundle Plane.engine :=
  Build_Bundle Plane.engine (ROADS bundle) (naselja bundle)
    (port "Marina X" 0 80000 :: m_luke bundle).

Definition zoomed : relayout Plane.engine :=
  Some (<["mapbox.zoom" := PyInt 9]>
        (<["mapbox.center" := PyDict [("lat", PyFloat 45); ("lon", PyFloat 16)]]> ∅)).

Definition center_only : relayout Plane.engine :=
  Some (<["mapbox.center" := PyDict [("lat", PyFloat 45); ("lon", PyFloat 16)]]> ∅).

Definition zoom_only : relayout Plane.engine :=
  Some (<["mapbox.zoom" := PyInt 9]> ∅).
End Demo.

(** ** The page layout and the callback registration *)

(** Python's [range(start, stop, step)]; a zero step raises [ValueError]
    and gives [None] here. *)
Definition py_range (start stop step : Z) : option (list Z) :=
  if (step =? 0)%Z then None
  else
    let n :=
      if (0 <? step)%Z
      then (if (start <? stop)%Z then (stop - start + step - 1) / step else 0)%Z
      else (if (stop <? start)%Z then (start - stop - step - 1) / (- step) else 0)%Z in
    Some (map (fun i => (start + Z.of_nat i * step)%Z) (seq 0 (Z.to_nat n))).

(** The components the layout is built from, with the keyword arguments
    the program passes. *)
#[warnings="-register-all"]
Inductive Component : Type :=
| Div (style : list (string * string)) (children : list Component)
| H1 (text : string)
| P (text : string)
| Hr (style : list (string * string))
| H2 (id : string) (style : list (string * string))
| Slider (id : string) (min max step value : Z) (marks : list (Z * string))
    (tooltip_placement : string) (tooltip_always_visible : bool)
| Graph (id : string) (style : list (string * string)) (scrollZoom : option bool).

(** [{i: label(i) for i in range(start, stop, step)}] *)
Definition marks_of (label : Z -> string) (start stop step : Z) : list (Z * string) :=
  match py_range start stop step with
  | Some keys => map (fun i => (i, label i)) keys
  | None => []
  end.

Section Page.
Context (F : Formatter).
(** [f"{i/1000}"], the text of a float *)
Context (format_div_1000 : Z -> string).

Definition slider_roads : Component :=
  Slider "slider-roads" 0 10000 100 500
    (marks_of (fun i => format_int F i ++ " m") 0 20001 5000) "bottom" true.

Definition slider_ports : Component :=
  Slider "slider-ports" 0 50000 1000 20000
    (marks_of (fun i => format_div_1000 i ++ " km") 0 50001 10000) "bottom" true.

(** [app.layout] *)
Definition app_layout : Component :=
  Div [("backgroundColor", "#1E1E1E"); ("color", "#FFFFFF");
       ("fontFamily", "Arial, sans-serif"); ("padding", "20px")]
    [ Div []
        [ H1 "Settlement Population Near Major Roads";
          P "Use the slider to change the buffer distance (in meters) around the roads.";
          slider_roads;
          H2 "title-roads" [("marginTop", "20px")];
          Div [("display", "flex"); ("flexDirection", "row")]
            [ Graph "map-roads" [("height", "70vh"); ("width", "70%")] (Some true);
              Graph "barcharts-roads" [("height", "70vh"); ("width", "30%")] None ] ];
      Hr [("margin", "40px 0")];
      Div []
        [ H1 "Ports Near Large Settlements";
          P "Use the slider to change the buffer distance (in meters) from settlements with >10,000 inhabitants.";
          slider_ports;
          H2 "title-ports" [("marginTop", "20px")];
          Div [("display", "flex"); ("flexDirection", "row")]
            [ Graph "map-ports" [("height", "70vh"); ("width", "70%")] (Some true);
              Graph "barchart-ports" [("height", "70vh"); ("width", "30%")] None ] ] ].
End Page.

(** [Output], [Input] and [State] of a callback: a component id and one of
    its properties. *)
Record Dependency : Type := { component_id : string; component_property : string }.

Record Callback : Type := {
  cb_outputs : list Dependency;
  cb_inputs : list Dependency;
  cb_states : list Dependency
}.

(** The decorator of [update_roads_section]. *)
Definition roads_callback : Callback :=
  {| cb_outputs := [ {| component_id := "map-roads"; component_property := "figure" |};
                     {| component_id := "title-roads"; component_property := "children" |};
                     {| component_id := "barcharts-roads"; component_property := "figure" |} ];
     cb_inputs := [ {| component_id := "slider-roads"; component_property := "value" |} ];
     cb_states := [ {| component_id := "map-roads"; component_property := "relayoutData" |} ] |}.

(** The decorator of [update_ports_section]. *)
Definition ports_callback : Callback :=
  {| cb_outputs := [ {| component_id := "map-ports"; component_property := "figure" |};
                     {| component_id := "title-ports"; component_property := "children" |};
                     {| component_id := "barchart-ports"; component_property := "figure" |} ];
     cb_inputs := [ {| component_id := "slider-ports"; component_property := "value" |} ];
     cb_states := [ {| component_id := "map-ports"; component_property := "relayoutData" |} ] |}.

(** ** Further notions the properties are stated with *)

(** The components of a layout that carry an id, in document order, with
    the properties the callbacks may read or write on their kind. *)
Fixpoint identified (c : Component) : list (string * list string) :=
  match c with
  | Div _ children => flat_map identified children
  | H2 id _ => [(id, ["children"])]
  | Slider id _ _ _ _ _ _ _ => [(id, ["value"])]
  | Graph id _ _ => [(id, ["figure"; "relayoutData"])]
  | H1 _ | P _ | Hr _ => []
  end.

(** The dependency names a component of the page and a property of it. *)
Definition resolves (page : list (string * list string)) (dep : Dependency) : bool :=
  existsb (fun c => String.eqb (fst c) (component_id dep)
                    && existsb (String.eqb (component_property dep)) (snd c))
          page.

(** The values a slider can take: [min], [min + step], ... up to [max]. *)
Definition slider_positions (min max step : Z) : list Z :=
  default [] (py_range min (max + 1) step).

(** The range, step, initial value and mark positions of a slider. *)
Definition slider_range (c : Component) : option (Z * Z * Z * Z * list Z) :=
  match c with
  | Slider _ min max step value marks _ _ => Some (min, max, step, value, map fst marks)
  | _ => None
  end.

(** The relayout value has a zoom and no centre. *)
Definition zoom_without_center {E : GeoEngine} (rl : relayout E) : bool :=
  match rl with
  | Some m =>
      match m !! "mapbox.zoom", m !! "mapbox.center" with
      | Some _, None => true
      | _, _ => false
      end
  | None => false
  end.

(** A layout with its zoom and centre blanked. *)
Definition without_view {C : Type} (l : Layout C) : Layout C :=
  {| template := template l; title_text := title_text l;
     showlegend := showlegend l; mapbox_style := mapbox_style l;
     mapbox_zoom := None; mapbox_center := None;
     margin := margin l; legend := legend l; subplots := subplots l |}.

(** The number of markers of a marker trace whose latitudes, longitudes and
    hover texts, when it has any, agree in number. *)
Definition marker_count {C G : Type} (t : Trace C G) : option Z :=
  match t with
  | Scattermapbox lat lon _ _ text _ _ =>
      if (length lat =? length lon)%nat
         && match text with
            | Some names => (length names =? length lat)%nat
            | None => true
            end
      then Some (len lat)
      else None
  | _ => None
  end.

(** The guarantee asked of the geometry engine for the empty case: nothing
    is within the union of no geometry at all. *)
Definition empty_union_contains_nothing (E : GeoEngine) : Prop :=
  forall p : geom E, within E p (union_all E []) = false.

(** More example data. *)
Module Cases.
(** [Demo.bundle] without its local road. *)
Definition motorway_only : Bundle Plane.engine :=
  Build_Bundle Plane.engine [ Demo.road 1 [(0, 0); (1000, 0)] ]
    (naselja Demo.bundle) (m_luke Demo.bundle).

(** [Demo.bundle] without its small settlements. *)
Definition town_only : Bundle Plane.engine :=
  Build_Bundle Plane.engine (ROADS Demo.bundle)
    [ Demo.settlement "Grad" 25000 0 0 ] (m_luke Demo.bundle).

(** Only villages: no settlement has more than 10000 inhabitants. *)
Definition villages : Bundle Plane.engine :=
  Build_Bundle Plane.engine (ROADS Demo.bundle)
    [ Demo.settlement "Selo" 10000 0 0; Demo.settlement "Zaselak" 40 0 5000 ]
    (m_luke Demo.bundle).

(** A port table without a repeated name. *)
Definition distinct_ports : Bundle Plane.engine :=
  Build_Bundle Plane.engine (ROADS Demo.bundle) (naselja Demo.bundle)
    [ Demo.port "Marina X" 100 0; Demo.port "Luka Y" 0 90000;
      Demo.port "Marina Z" 0 200 ].

(** No settlement and no port at all. *)
Definition empty_tables : Bundle Plane.engine :=
  Build_Bundle Plane.engine (ROADS Demo.bundle) [] [].

(** A relayout value as the map widget sends it, with bearing and pitch. *)
Definition zoomed_and_turned : relayout Plane.engine :=
  Some (<["mapbox.bearing" := PyInt 30]>
        (<["mapbox.pitch" := PyInt 0]>
         (<["mapbox.zoom" := PyInt 9]>
          (<["mapbox.center" := PyDict [("lat", PyFloat 45); ("lon", PyFloat 16)]]> ∅)))).
End Cases.

(** * Properties *)

(** ** The example data, evaluated *)

Example roads_counts_500 :
  (Roads.count_in_buffer Demo.bundle 500, Roads.count_out_buffer Demo.bundle 500,
   Roads.pop_in_buffer Demo.bundle 500, Roads.pop_out_buffer Demo.bundle 500)
  = (2, 1, 25800, 40).
Proof. vm_compute. reflexivity. Qed.

Example ports_counts_5000 :
  (Ports.count_in_buffer Demo.bundle 5000, Ports.count_out_buffer Demo.bundle 5000)
  = (1, 2).
Proof. vm_compute. reflexivity. Qed.

(** ** 64-bit arithmetic *)

Lemma wrap64_range (z : Z) : - 2 ^ 63 <= wrap64 z < 2 ^ 63.
Proof.
  unfold wrap64.
  pose proof (Z.mod_pos_bound (z + 2 ^ 63) (2 ^ 64) ltac:(lia)). lia.
Qed.

Lemma wrap64_id (z : Z) : - 2 ^ 63 <= z < 2 ^ 63 -> wrap64 z = z.
Proof.
  intros Hz. unfold wrap64. rewrite Z.mod_small; lia.
Qed.

Lemma wrap64_add_r (a b : Z) : wrap64 (a + wrap64 b) = wrap64 (a + b).
Proof.
  unfold wrap64.
  replace (a + ((b + 2 ^ 63) mod 2 ^ 64 - 2 ^ 63) + 2 ^ 63)
    with (a + (b + 2 ^ 63) mod 2 ^ 64) by lia.
  rewrite Zplus_mod_idemp_r. do 2 f_equal. lia.
Qed.

Lemma sum64_range (col : list Z) : - 2 ^ 63 <= sum64 col < 2 ^ 63.
Proof.
  unfold sum64.
  assert (H : forall acc, - 2 ^ 63 <= acc < 2 ^ 63 ->
                          - 2 ^ 63 <= fold_left add64 col acc < 2 ^ 63).
  { induction col as [|v col IH]; intros acc Hacc; simpl; [exact Hacc|].
    apply IH, wrap64_range. }
  apply H. lia.
Qed.

Lemma sum64_total (col : list Z) : sum64 col = wrap64 (total col).
Proof.
  unfold sum64.
  assert (H : forall acc, fold_left add64 col acc = wrap64 (acc + total col)
                          \/ col = [] /\ fold_left add64 col acc = acc).
  { induction col as [|v col IH]; intros acc; simpl; [right; auto|left].
    destruct (IH (add64 acc v)) as [-> | [-> ->]]; simpl.
    - unfold add64. rewrite (Z.add_comm (wrap64 _)), wrap64_add_r. f_equal. lia.
    - unfold add64. f_equal. lia. }
  destruct (H 0) as [-> | [-> _]]; [reflexivity|].
  simpl. symmetry. apply wrap64_id. lia.
Qed.

(** ** The spatial join against the single dissolved region *)

Section JoinFacts.
Context {E : GeoEngine}.

Lemma sjoin_single {A B : Type} (left : GeoDataFrame E A) (r : GeoRow B (geom E)) :
  sjoin left [r]
  = List.filter (fun l => within E (geometry l) (geometry r)) left.
Proof.
  unfold sjoin. induction left as [|l left IH]; simpl in *; [reflexivity|].
  rewrite IH. destruct (within E (geometry l) (geometry r)); reflexivity.
Qed.

Lemma filter_length_le {A : Type} (f : A -> bool) (l : list A) :
  (length (List.filter f l) <= length l)%nat.
Proof.
  induction l as [|a l IH]; simpl; [lia|]. destruct (f a); simpl; lia.
Qed.

Lemma filter_length_mono {A : Type} (f g : A -> bool) (l : list A) :
  (forall a, f a = true -> g a = true) ->
  (length (List.filter f l) <= length (List.filter g l))%nat.
Proof.
  intros Hfg. induction l as [|a l IH]; simpl; [lia|].
  destruct (f a) eqn:Hf.
  - rewrite (Hfg a Hf). simpl. lia.
  - destruct (g a); simpl; lia.
Qed.

Lemma filter_split_length {A : Type} (f : A -> bool) (l : list A) :
  (length (List.filter f l) + length (List.filter (fun a => negb (f a)) l)
   = length l)%nat.
Proof.
  induction l as [|a l IH]; simpl; [reflexivity|].
  destruct (f a); simpl; lia.
Qed.

Lemma total_filter_split {A : Type} (f : A -> bool) (v : A -> Z) (l : list A) :
  total (map v (List.filter f l))
  + total (map v (List.filter (fun a => negb (f a)) l))
  = total (map v l).
Proof.
  induction l as [|a l IH]; simpl; [reflexivity|].
  destruct (f a); simpl; unfold total in *; lia.
Qed.

Lemma total_nonneg (col : list Z) :
  Forall (fun v => 0 <= v) col -> 0 <= total col.
Proof.
  induction 1 as [|v col Hv _ IH]; simpl; unfold total in *; simpl; lia.
Qed.

Lemma Forall_map_filter {A : Type} (P : Z -> Prop) (v : A -> Z)
    (f : A -> bool) (l : list A) :
  Forall P (map v l) -> Forall P (map v (List.filter f l)).
Proof.
  induction l as [|a l IH]; simpl; intros H; [constructor|].
  inversion H; subst. destruct (f a); simpl; [constructor|]; auto.
Qed.
End JoinFacts.

Lemma roads_selected_filter {E : GeoEngine} (b : Bundle E) (d : Z) :
  Roads.selected_naselja b d
  = List.filter (in_zone (Roads.dissolved_buffer b d)) (naselja_gdf b).
Proof. unfold Roads.selected_naselja, Roads.dissolved_gdf. apply sjoin_single. Qed.

Lemma ports_joined_filter {E : GeoEngine} (b : Bundle E) (d : Z) :
  Ports.joined_ports b d
  = List.filter (in_zone (Ports.dissolved_buffer b d)) (m_luke_gdf b).
Proof. unfold Ports.joined_ports, Ports.dissolved_gdf. apply sjoin_single. Qed.

(** The outside count of the roads section is the number of settlements
    that are not within the dissolved buffer. *)
Lemma roads_count_out_rows {E : GeoEngine} (b : Bundle E) (d : Z) :
  Roads.count_out_buffer b d
  = len (List.filter (fun r => negb (in_zone (Roads.dissolved_buffer b d) r))
                     (naselja_gdf b)).
Proof.
  unfold Roads.count_out_buffer, Roads.count_in_buffer, len.
  rewrite roads_selected_filter.
  pose proof (filter_split_length (in_zone (Roads.dissolved_buffer b d)) (naselja_gdf b)).
  lia.
Qed.

(** The charts the callbacks return show the counts and sums of the
    analysis. *)
Lemma roads_chart_values {E : GeoEngine} (F : Formatter) (b : Bundle E) (d : Z)
    (rl : relayout E) (map_fig chart : figure E) (title : string) :
  update_roads_section F (Loaded b) d rl = Ok (map_fig, title, chart) ->
  map bar_values (data chart)
  = [ [Roads.pop_in_buffer b d; Roads.pop_out_buffer b d];
      [Roads.count_in_buffer b d; Roads.count_out_buffer b d] ].
Proof.
  unfold update_roads_section.
  destruct (viewport b rl) as [[zoom center]|e]; simpl; [|discriminate].
  intros [= _ _ <-]. reflexivity.
Qed.

Lemma ports_chart_values {E : GeoEngine} (F : Formatter) (b : Bundle E) (d : Z)
    (rl : relayout E) (map_fig chart : figure E) (title : string) :
  update_ports_section F (Loaded b) d rl = Ok (map_fig, title, chart) ->
  map bar_values (data chart)
  = [ [Ports.count_in_buffer b d; Ports.count_out_buffer b d] ].
Proof.
  unfold update_ports_section.
  destruct (viewport b rl) as [[zoom center]|e]; simpl; [|discriminate].
  intros [= _ _ <-]. reflexivity.
Qed.

(** C1. Roads-section conservation: for every buffer distance [d >= 0] the
    inside count plus the outside count is the number of settlements, and
    the inside population sum plus the outside population sum is the total
    population sum, both in the 64-bit arithmetic of the population column
    and, when the populations are non-negative and their sum fits the
    column type, as exact integers. *)
Theorem roads_conservation {E : GeoEngine} (b : Bundle E) (d : Z) :
  0 <= d ->
  let population := map (fun r => BR_ST_01 (attrs r)) (naselja_gdf b) in
  Roads.count_in_buffer b d + Roads.count_out_buffer b d = len (naselja b)
  /\ add64 (Roads.pop_in_buffer b d) (Roads.pop_out_buffer b d) = sum64 population
  /\ (Forall (fun v => 0 <= v) population -> total population < 2 ^ 63 ->
      Roads.pop_in_buffer b d + Roads.pop_out_buffer b d = total population).
Proof.
  intros _ population. split; [|split].
  - unfold Roads.count_out_buffer, naselja_gdf, len. rewrite length_map. lia.
  - unfold Roads.pop_out_buffer, add64, sub64. fold population.
    rewrite wrap64_add_r.
    replace (Roads.pop_in_buffer b d + (sum64 population - Roads.pop_in_buffer b d))
      with (sum64 population) by lia.
    apply wrap64_id, sum64_range.
  - intros Hpos Hfit.
    unfold Roads.pop_out_buffer, Roads.pop_in_buffer, sub64. fold population.
    rewrite roads_selected_filter.
    set (f := in_zone (Roads.dissolved_buffer b d)).
    pose proof (total_filter_split f (fun r => BR_ST_01 (attrs r)) (naselja_gdf b)) as Hsplit.
    fold population in Hsplit.
    assert (Hin : 0 <= total (map (fun r => BR_ST_01 (attrs r)) (List.filter f (naselja_gdf b)))).
    { apply total_nonneg, Forall_map_filter, Hpos. }
    assert (Hout : 0 <= total (map (fun r => BR_ST_01 (attrs r))
                                 (List.filter (fun a => negb (f a)) (naselja_gdf b)))).
    { apply total_nonneg, Forall_map_filter, Hpos. }
    pose proof (total_nonneg population Hpos) as Htot.
    rewrite !sum64_total.
    rewrite (wrap64_id (total population)) by lia.
    rewrite (wrap64_id (total (map _ (List.filter f _)))) by lia.
    rewrite wrap64_id by lia. lia.
Qed.

Lemma roads_conservation_witness :
  0 <= 500
  /\ Roads.count_in_buffer Demo.bundle 500
     + Roads.count_out_buffer Demo.bundle 500 = 3
  /\ Roads.pop_in_buffer Demo.bundle 500
     + Roads.pop_out_buffer Demo.bundle 500 = 25840.
Proof.
  split; [lia|].
  destruct (roads_conservation Demo.bundle 500 ltac:(lia)) as (Hc & _ & Hp).
  split; [exact Hc|].
  apply Hp; vm_compute; [|reflexivity].
  repeat constructor; discriminate.
Defined.

(** ** Dropping duplicates *)

Section Dedup.
Context {E : GeoEngine} {A : Type} (key : A -> string).

(** Of the rows with a given key, the de-duplicated frame holds the first
    one, unless the key was seen before. *)
Lemma drop_duplicates_seen_filter (n : string) (df : GeoDataFrame E A) :
  forall seen,
    List.filter (has_key key n) (drop_duplicates_seen key seen df)
    = if bool_decide (n ∈ seen) then []
      else match find (has_key key n) df with
           | Some r => [r]
           | None => []
           end.
Proof.
  induction df as [|r rest IH]; intros seen; simpl.
  - destruct (bool_decide (n ∈ seen)); reflexivity.
  - destruct (bool_decide_reflect (key (attrs r) ∈ seen)) as [Hseen|Hfresh].
    + rewrite IH. destruct (bool_decide_reflect (n ∈ seen)) as [_|Hn]; [reflexivity|].
      destruct (has_key key n r) eqn:Hk; [|reflexivity].
      apply bool_decide_eq_true in Hk. exfalso. apply Hn. rewrite <- Hk. exact Hseen.
    + simpl. rewrite IH. destruct (has_key key n r) eqn:Hk.
      * apply bool_decide_eq_true in Hk. subst n.
        rewrite bool_decide_true by (apply list_elem_of_here).
        rewrite bool_decide_false by exact Hfresh. reflexivity.
      * apply bool_decide_eq_false in Hk.
        destruct (bool_decide_reflect (n ∈ seen)) as [Hn|Hn].
        -- rewrite bool_decide_true by (apply list_elem_of_further, Hn). reflexivity.
        -- rewrite bool_decide_false; [reflexivity|].
           intros Hin. apply elem_of_cons in Hin as [Hin|Hin]; congruence.
Qed.

Lemma drop_duplicates_filter (n : string) (df : GeoDataFrame E A) :
  List.filter (has_key key n) (drop_duplicates key df)
  = match find (has_key key n) df with
    | Some r => [r]
    | None => []
    end.
Proof.
  unfold drop_duplicates. rewrite drop_duplicates_seen_filter.
  rewrite bool_decide_false; [reflexivity|]. apply not_elem_of_nil.
Qed.

(** No key occurs twice in the de-duplicated frame. *)
Lemma drop_duplicates_seen_NoDup (df : GeoDataFrame E A) :
  forall seen,
    NoDup (map (fun r => key (attrs r)) (drop_duplicates_seen key seen df))
    /\ forall k, k ∈ map (fun r => key (attrs r)) (drop_duplicates_seen key seen df)
                 -> k ∉ seen.
Proof.
  induction df as [|r rest IH]; intros seen; simpl.
  - split; [constructor|]. intros k Hk. apply elem_of_nil in Hk. contradiction.
  - destruct (bool_decide_reflect (key (attrs r) ∈ seen)) as [Hseen|Hfresh].
    + apply IH.
    + destruct (IH (key (attrs r) :: seen)) as [Hnd Hnot]. simpl. split.
      * apply NoDup_cons. split; [|exact Hnd].
        intros Hin. apply (Hnot _ Hin). apply list_elem_of_here.
      * intros k Hk. apply elem_of_cons in Hk as [->|Hk]; [exact Hfresh|].
        intros Hin. apply (Hnot _ Hk). apply list_elem_of_further, Hin.
Qed.

Lemma drop_duplicates_NoDup (df : GeoDataFrame E A) :
  NoDup (map (fun r => key (attrs r)) (drop_duplicates key df)).
Proof. apply drop_duplicates_seen_NoDup. Qed.

Lemma find_app_skip (p : GeoRow A (geom E) -> bool) (l1 l2 : GeoDataFrame E A) :
  (forall x, In x l1 -> p x = false) -> find p (l1 ++ l2)%list = find p l2.
Proof.
  induction l1 as [|a l1 IH]; intros Hskip; simpl; [reflexivity|].
  rewrite (Hskip a) by (left; reflexivity).
  apply IH. intros x Hx. apply Hskip. right. exact Hx.
Qed.

(** The first row with property [p] among the rows a filter keeps, located
    in the unfiltered frame. *)
Lemma find_filter_split (p q : GeoRow A (geom E) -> bool) (l : GeoDataFrame E A)
    (r : GeoRow A (geom E)) :
  find p (List.filter q l) = Some r ->
  exists l1 l2, l = (l1 ++ r :: l2)%list /\ p r = true /\ q r = true
                /\ forall x, In x l1 -> p x = true -> q x = false.
Proof.
  induction l as [|a l IH]; simpl; [discriminate|].
  destruct (q a) eqn:Hq; simpl.
  - destruct (p a) eqn:Hp.
    + intros [= <-]. exists [], l. repeat split; auto. intros x [].
    + intros Hfind. destruct (IH Hfind) as (l1 & l2 & -> & Hpr & Hqr & Hl1).
      exists (a :: l1), l2. repeat split; auto.
      intros x [<-|Hx] Hpx; [congruence|auto].
  - intros Hfind. destruct (IH Hfind) as (l1 & l2 & -> & Hpr & Hqr & Hl1).
    exists (a :: l1), l2. repeat split; auto.
    intros x [<-|Hx] Hpx; [exact Hq|auto].
Qed.

Lemma find_of_occurrence (p : GeoRow A (geom E) -> bool) (l : GeoDataFrame E A) :
  (0 < length (List.filter p l))%nat -> exists r, find p l = Some r.
Proof.
  induction l as [|a l IH]; simpl; [lia|].
  destruct (p a); [eauto|exact IH].
Qed.
End Dedup.

(** C3. Ports-section outside count: for every buffer distance [d >= 0] the
    outside count is the number of rows of the raw port table minus the
    inside count, and the inside count is the number of rows left after the
    ports within the zone are de-duplicated by name. *)
Theorem ports_outside_count_raw {E : GeoEngine} (b : Bundle E) (d : Z) :
  0 <= d ->
  let inside :=
    drop_duplicates NAZIV
      (List.filter (in_zone (Ports.dissolved_buffer b d)) (m_luke_gdf b)) in
  Ports.count_in_buffer b d = len inside
  /\ NoDup (map (fun r => NAZIV (attrs r)) inside)
  /\ Ports.count_out_buffer b d = Z.of_nat (length (m_luke b)) - len inside.
Proof.
  intros _ inside.
  assert (Hsel : Ports.selected_ports b d = inside).
  { unfold Ports.selected_ports, inside. rewrite ports_joined_filter. reflexivity. }
  split; [|split].
  - unfold Ports.count_in_buffer. rewrite Hsel. reflexivity.
  - apply drop_duplicates_NoDup.
  - unfold Ports.count_out_buffer, Ports.count_in_buffer. rewrite Hsel.
    unfold len at 1, m_luke_gdf. rewrite length_map. reflexivity.
Qed.

Lemma ports_outside_count_raw_witness :
  0 <= 5000
  /\ Ports.count_in_buffer Demo.bundle 5000 = 1
  /\ Ports.count_out_buffer Demo.bundle 5000 = 3 - 1.
Proof.
  split; [lia|].
  destruct (ports_outside_count_raw Demo.bundle 5000 ltac:(lia)) as (Hin & _ & Hout).
  split; [exact Hin | exact Hout].
Defined.

(** C2. The ports section on a port table with a repeated name: the inside
    count and the outside count add up to the number of raw rows, which is
    larger than the number of ports after de-duplication by name, and one
    of the two rows counted as outside lies inside the zone. *)
Theorem ports_conservation_duplicate_names :
  let b := Demo.bundle in
  Ports.count_in_buffer b 5000 + Ports.count_out_buffer b 5000 = 3
  /\ len (drop_duplicates NAZIV (m_luke_gdf b)) = 2
  /\ len (List.filter (fun r => negb (in_zone (Ports.dissolved_buffer b 5000) r))
                      (m_luke_gdf b)) = 1.
Proof. vm_compute. repeat split. Qed.

(** C4. De-duplication keeps the first occurrence: for every buffer
    distance [d >= 0] and every name carried by more than one selected port
    row, the selected-port output holds exactly one row with that name, and
    it is the first row of the port table, in input order, that has the name
    and lies within the zone. *)
Theorem dedup_keeps_first {E : GeoEngine} (b : Bundle E) (d : Z) (n : string) :
  0 <= d ->
  (1 < length (List.filter (has_key NAZIV n) (Ports.joined_ports b d)))%nat ->
  exists r l1 l2,
    List.filter (has_key NAZIV n) (Ports.selected_ports b d) = [r]
    /\ m_luke_gdf b = (l1 ++ r :: l2)%list
    /\ NAZIV (attrs r) = n
    /\ in_zone (Ports.dissolved_buffer b d) r = true
    /\ forall q, In q l1 -> NAZIV (attrs q) = n ->
                 in_zone (Ports.dissolved_buffer b d) q = false.
Proof.
  intros _ Hmany.
  destruct (find_of_occurrence (has_key NAZIV n) (Ports.joined_ports b d))
    as [r Hfind]; [lia|].
  exists r. unfold Ports.selected_ports.
  rewrite drop_duplicates_filter, Hfind.
  rewrite ports_joined_filter in Hfind.
  apply find_filter_split in Hfind as (l1 & l2 & Hsplit & Hname & Hzone & Hbefore).
  exists l1, l2. repeat split; auto.
  - apply bool_decide_eq_true in Hname. exact Hname.
  - intros q Hq Hqn. apply Hbefore; [exact Hq|].
    apply bool_decide_eq_true. exact Hqn.
Qed.

Lemma dedup_keeps_first_witness :
  exists r,
    List.filter (has_key NAZIV "Marina X")
      (Ports.selected_ports Demo.bundle_far_first 5000) = [r]
    /\ NAZIV (attrs r) = "Marina X".
Proof.
  assert (H0 : 0 <= 5000) by lia.
  assert (H1 : (1 < length (List.filter (has_key NAZIV "Marina X")
                      (Ports.joined_ports Demo.bundle_far_first 5000)))%nat).
  { vm_compute. lia. }
  destruct (dedup_keeps_first Demo.bundle_far_first 5000 "Marina X" H0 H1)
    as (r & l1 & l2 & Hone & _ & Hname & _).
  exists r. split; [exact Hone | exact Hname].
Defined.

Example dedup_far_first_row :
  map (fun r => (NAZIV (attrs r), geometry r))
      (Ports.selected_ports Demo.bundle_far_first 5000)
  = [("Marina X", Plane.Pt 100 0)].
Proof. vm_compute. reflexivity. Qed.

(** C10. De-duplication comes after selection: for every buffer distance
    [d >= 0], a port row within the zone is in the selected-port output
    whenever no earlier row with its name is within the zone, whatever
    same-named rows lie outside; and two port tables with the same rows
    within the zone give the same selected-port output. *)
Theorem dedup_after_selection {E : GeoEngine} (b : Bundle E) (d : Z) :
  0 <= d ->
  (forall l1 r l2,
      m_luke_gdf b = (l1 ++ r :: l2)%list ->
      in_zone (Ports.dissolved_buffer b d) r = true ->
      (forall q, In q l1 -> NAZIV (attrs q) = NAZIV (attrs r) ->
                 in_zone (Ports.dissolved_buffer b d) q = false) ->
      In r (Ports.selected_ports b d))
  /\ (forall b' : Bundle E,
         naselja b' = naselja b ->
         List.filter (in_zone (Ports.dissolved_buffer b d)) (m_luke_gdf b')
         = List.filter (in_zone (Ports.dissolved_buffer b d)) (m_luke_gdf b) ->
         Ports.selected_ports b' d = Ports.selected_ports b d).
Proof.
  intros _. split.
  - intros l1 r l2 Hsplit Hzone Hbefore.
    set (zone := Ports.dissolved_buffer b d) in *.
    assert (Hfind : find (has_key NAZIV (NAZIV (attrs r))) (Ports.joined_ports b d)
                    = Some r).
    { rewrite ports_joined_filter. fold zone. rewrite Hsplit, List.filter_app.
      rewrite find_app_skip.
      - simpl. rewrite Hzone. simpl. unfold has_key at 1.
        rewrite bool_decide_true by reflexivity. reflexivity.
      - intros x Hx. apply filter_In in Hx as [Hx Hxz].
        destruct (has_key NAZIV (NAZIV (attrs r)) x) eqn:Hk; [|reflexivity].
        apply bool_decide_eq_true in Hk. rewrite (Hbefore x Hx Hk) in Hxz.
        discriminate. }
    pose proof (drop_duplicates_filter NAZIV (NAZIV (attrs r)) (Ports.joined_ports b d))
      as Hone.
    rewrite Hfind in Hone.
    assert (Hin : In r (List.filter (has_key NAZIV (NAZIV (attrs r)))
                          (drop_duplicates NAZIV (Ports.joined_ports b d)))).
    { rewrite Hone. left. reflexivity. }
    apply filter_In in Hin as [Hin _]. exact Hin.
  - intros b' Hsame Hrows.
    assert (Hzone : Ports.dissolved_buffer b' d = Ports.dissolved_buffer b d).
    { unfold Ports.dissolved_buffer, Ports.buffer_polygons, large_settlements,
        naselja_gdf. rewrite Hsame. reflexivity. }
    unfold Ports.selected_ports. rewrite !ports_joined_filter, Hzone, Hrows.
    reflexivity.
Qed.

Lemma dedup_after_selection_witness :
  In {| attrs := Demo.port "Marina X" 100 0; geometry := Plane.Pt 100 0 |}
     (Ports.selected_ports Demo.bundle_far_first 5000)
  /\ Ports.selected_ports Demo.bundle 5000
     = Ports.selected_ports Demo.bundle_far_first 5000.
Proof.
  destruct (dedup_after_selection Demo.bundle_far_first 5000 ltac:(lia))
    as [Hkept Hsame].
  split.
  - apply (Hkept
             [ {| attrs := Demo.port "Marina X" 0 80000;
                  geometry := Plane.Pt 0 80000 |} ]
             {| attrs := Demo.port "Marina X" 100 0; geometry := Plane.Pt 100 0 |}
             [ {| attrs := Demo.port "Marina X" 0 200; geometry := Plane.Pt 0 200 |};
               {| attrs := Demo.port "Luka Y" 0 90000;
                  geometry := Plane.Pt 0 90000 |} ]).
    + reflexivity.
    + vm_compute. reflexivity.
    + intros q [<-|[]] _. vm_compute. reflexivity.
  - apply Hsame; reflexivity.
Defined.

(** ** Monotonicity in the buffer radius *)

Lemma plane_inside_grow (x y d1 d2 : Z) (c : Z * Z * Z) :
  d1 <= d2 ->
  Plane.inside x y (Plane.grow d1 c) = true ->
  Plane.inside x y (Plane.grow d2 c) = true.
Proof.
  destruct c as [[cx cy] r]. unfold Plane.inside, Plane.grow. simpl.
  intros Hd H. apply andb_true_iff in H as [Hr Hin].
  apply Z.ltb_lt in Hr, Hin. apply andb_true_iff. split; apply Z.ltb_lt; nia.
Qed.

Lemma plane_buffer_monotone : buffer_monotone Plane.engine.
Proof.
  intros gs d1 d2 p _ Hd. simpl.
  destruct p as [x y| |]; simpl; try discriminate.
  induction gs as [|g gs IH]; simpl; [discriminate|].
  rewrite !existsb_app, !orb_true_iff. intros [H|H]; [left|right; auto].
  clear IH. induction (Plane.discs g) as [|c ds IH]; simpl in *; [discriminate|].
  apply orb_true_iff in H as [H|H]; apply orb_true_iff.
  - left. eapply plane_inside_grow; eauto.
  - right. auto.
Qed.

(** C7. Monotonicity in the buffer radius: for [0 <= d1 < d2], under the
    engine's guarantee that a buffer of larger radius contains the buffer
    of smaller radius, the inside count of the roads section at [d1] is at
    most the inside count at [d2]. *)
Theorem roads_inside_count_monotone {E : GeoEngine} (b : Bundle E) (d1 d2 : Z) :
  buffer_monotone E ->
  0 <= d1 -> d1 < d2 ->
  Roads.count_in_buffer b d1 <= Roads.count_in_buffer b d2.
Proof.
  intros Hmono H0 Hlt. unfold Roads.count_in_buffer, len.
  rewrite !roads_selected_filter. apply inj_le, filter_length_mono.
  intros r. unfold in_zone, Roads.dissolved_buffer, Roads.buffer_polygons.
  rewrite <- !(map_map geometry (fun g => buffer E g _)).
  apply Hmono; lia.
Qed.

Lemma roads_inside_count_monotone_witness :
  Roads.count_in_buffer Demo.bundle 100 <= Roads.count_in_buffer Demo.bundle 500.
Proof.
  apply (roads_inside_count_monotone Demo.bundle 100 500 plane_buffer_monotone);
    lia.
Defined.

Example roads_inside_counts_grow :
  map (Roads.count_in_buffer Demo.bundle) [0; 100; 500; 6000] = [0; 1; 2; 3].
Proof. vm_compute. reflexivity. Qed.

(** ** The viewport *)

Section ViewportFacts.
Context {E : GeoEngine} (b : Bundle E).

Lemma viewport_echo (m : gmap string (pyval (coord E))) (zoom center : pyval (coord E)) :
m !! "mapbox.zoom" = Some zoom -> m !! "mapbox.center" = Some center ->
viewport b (Some m) = Ok (zoom, center).
Proof.
intros Hz Hc. unfold viewport, truthy, getitem.
rewrite bool_decide_false by (intros ->; rewrite lookup_empty in Hz; discriminate).
rewrite bool_decide_true by (rewrite Hz; eauto).
simpl. rewrite Hz. simpl. rewrite Hc. reflexivity.
Qed.

Lemma viewport_default (rl : relayout E) :
lacks_zoom rl -> viewport b rl = Ok (default_view b).
Proof.
intros Hlack. destruct rl as [m|]; [|reflexivity].
unfold viewport. rewrite (bool_decide_false (is_Some _)).
- rewrite andb_false_r. reflexivity.
- rewrite (Hlack m eq_refl). intros [v Hv]. discriminate.
Qed.

(** A relayout value with a zoom and no centre makes the lookup of the
  centre fail. *)
Lemma viewport_zoom_without_center (m : gmap string (pyval (coord E))) :
is_Some (m !! "mapbox.zoom") -> m !! "mapbox.center" = None ->
viewport b (Some m) = Raise (KeyError "mapbox.center").
Proof.
intros [zoom Hz] Hc. unfold viewport, truthy, getitem.
rewrite bool_decide_false by (intros ->; rewrite lookup_empty in Hz; discriminate).
rewrite bool_decide_true by (rewrite Hz; eauto).
simpl. rewrite Hz. simpl. rewrite Hc. reflexivity.
Qed.

Lemma viewport_complete (rl : relayout E) :
view_complete rl ->
viewport b rl = Ok (default (default_view b) (supplied_view rl)).
Proof.
intros Hwf. destruct rl as [m|]; [|reflexivity].
destruct (m !! "mapbox.zoom") as [zoom|] eqn:Hz.
- destruct (Hwf m eq_refl) as [center Hc]; [rewrite Hz; eauto|].
  rewrite (viewport_echo m zoom center Hz Hc).
  unfold supplied_view. rewrite Hz, Hc. reflexivity.
- rewrite viewport_default by (intros m' [= <-]; exact Hz).
  unfold supplied_view. rewrite Hz. reflexivity.
Qed.

Lemma update_roads_section_loaded (F : Formatter) (d : Z) (rl : relayout E)
  (zoom center : pyval (coord E)) :
viewport b rl = Ok (zoom, center) ->
update_roads_section F (Loaded b) d rl
= Ok (update_layout (Roads.map_traces b d) (map_layout zoom center),
      Roads.title_string F b d, Roads.bar_fig b d).
Proof. intros Hv. unfold update_roads_section. rewrite Hv. reflexivity. Qed.

Lemma update_ports_section_loaded (F : Formatter) (d : Z) (rl : relayout E)
  (zoom center : pyval (coord E)) :
viewport b rl = Ok (zoom, center) ->
update_ports_section F (Loaded b) d rl
= Ok (update_layout (Ports.map_traces b d) (map_layout zoom center),
      Ports.title_string F b d, Ports.bar_fig_ports b d).
Proof. intros Hv. unfold update_ports_section. rewrite Hv. reflexivity. Qed.

End ViewportFacts.

(** C5. Load-failure short-circuit: when the data did not load, for every
    buffer distance and every relayout value both callbacks return the error
    figure for the map and for the chart, with the load error message as
    title; the error figure has no trace and is built without the geometry
    engine. *)
Theorem load_failure_short_circuit {E : GeoEngine} (F : Formatter)
    (filename : string) (d : Z) (rl : relayout E) :
  update_roads_section F (LoadFailed filename) d rl
  = Ok (error_fig, ERROR_MESSAGE filename, error_fig)
  /\ update_ports_section F (LoadFailed filename) d rl
     = Ok (error_fig, ERROR_MESSAGE filename, error_fig)
  /\ @error_fig (coord E) (geojson E)
     = {| data := [];
          layout := {| template := Some "plotly_dark"; title_text := Some "Error";
                       showlegend := None; mapbox_style := None;
                       mapbox_zoom := None; mapbox_center := None;
                       margin := None; legend := None; subplots := None |} |}.
Proof. repeat split. Qed.

(** C6. Viewport preservation: for every update whose relayout value is a
    complete viewport echo or none, both callbacks produce a map; when the
    relayout value supplies a zoom and a centre the map has exactly that
    zoom and centre, otherwise it has zoom 6 and the centroid of the
    filtered road network as centre. *)
Theorem viewport_preservation {E : GeoEngine} (F : Formatter) (b : Bundle E)
    (d : Z) (rl : relayout E) :
  view_complete rl ->
  exists map_roads title_roads chart_roads map_ports title_ports chart_ports,
    update_roads_section F (Loaded b) d rl = Ok (map_roads, title_roads, chart_roads)
    /\ update_ports_section F (Loaded b) d rl = Ok (map_ports, title_ports, chart_ports)
    /\ match supplied_view rl with
       | Some (zoom, center) =>
           view_of map_roads = (Some zoom, Some center)
           /\ view_of map_ports = (Some zoom, Some center)
       | None =>
           view_of map_roads = (Some (fst (default_view b)), Some (snd (default_view b)))
           /\ view_of map_ports = (Some (fst (default_view b)), Some (snd (default_view b)))
       end.
Proof.
  intros Hwf. pose proof (viewport_complete b rl Hwf) as Hv.
  destruct (default (default_view b) (supplied_view rl)) as [zoom center] eqn:Hview.
  do 6 eexists. split; [|split].
  - apply update_roads_section_loaded, Hv.
  - apply update_ports_section_loaded, Hv.
  - destruct (supplied_view rl) as [[z c]|]; simpl in Hview.
    + injection Hview as -> ->. split; reflexivity.
    + rewrite Hview. split; reflexivity.
Qed.

Lemma viewport_preservation_witness :
  exists map_roads title_roads chart_roads,
    update_roads_section Plane.formatter (Loaded Demo.bundle) 500 Demo.zoomed
    = Ok (map_roads, title_roads, chart_roads)
    /\ view_of map_roads
       = (Some (PyInt 9), Some (PyDict [("lat", PyFloat 45); ("lon", PyFloat 16)])).
Proof.
  assert (Hwf : view_complete Demo.zoomed).
  { intros m [= <-] _. vm_compute. eauto. }
  destruct (viewport_preservation Plane.formatter Demo.bundle 500 Demo.zoomed Hwf)
    as (mr & tr & cr & mp & tp & cp & Hr & _ & Hview).
  exists mr, tr, cr. split; [exact Hr|].
  change (supplied_view Demo.zoomed)
    with (Some (PyInt 9 : pyval (coord Plane.engine),
                PyDict [("lat", PyFloat 45); ("lon", PyFloat 16)] : pyval (coord Plane.engine)))
    in Hview.
  exact (proj1 Hview).
Defined.

(** C9. Both callbacks take the viewport from the relayout value only when
    it has the key ['mapbox.zoom']: for every relayout value without that
    key -- none, one with only a centre, one with only other keys -- both
    maps get zoom 6 and the centroid-derived default centre. *)
Theorem viewport_default_without_zoom_key {E : GeoEngine} (F : Formatter)
    (b : Bundle E) (d : Z) (rl : relayout E) :
  lacks_zoom rl ->
  exists map_roads title_roads chart_roads map_ports title_ports chart_ports,
    update_roads_section F (Loaded b) d rl = Ok (map_roads, title_roads, chart_roads)
    /\ update_ports_section F (Loaded b) d rl = Ok (map_ports, title_ports, chart_ports)
    /\ view_of map_roads
       = (Some (PyInt 6),
          Some (PyDict [("lat", PyFloat (map_center_lat b));
                        ("lon", PyFloat (map_center_lon b))]))
    /\ view_of map_ports = view_of map_roads.
Proof.
  intros Hlack. pose proof (viewport_default b rl Hlack) as Hv.
  do 6 eexists. split; [|split; [|split]].
  - apply update_roads_section_loaded, Hv.
  - apply update_ports_section_loaded, Hv.
  - reflexivity.
  - reflexivity.
Qed.

Lemma viewport_default_without_zoom_key_witness :
  exists map_roads title_roads chart_roads,
    update_roads_section Plane.formatter (Loaded Demo.bundle) 500 Demo.center_only
    = Ok (map_roads, title_roads, chart_roads)
    /\ view_of map_roads
       = (Some (PyInt 6), Some (PyDict [("lat", PyFloat 0); ("lon", PyFloat 0)])).
Proof.
  assert (Hlack : lacks_zoom Demo.center_only).
  { intros m [= <-]. vm_compute. reflexivity. }
  destruct (viewport_default_without_zoom_key Plane.formatter Demo.bundle 500
              Demo.center_only Hlack)
    as (mr & tr & cr & mp & tp & cp & Hr & _ & Hview & _).
  exists mr, tr, cr. split; [exact Hr | exact Hview].
Defined.

Example zoom_without_center_raises :
  update_roads_section Plane.formatter (Loaded Demo.bundle) 500 Demo.zoom_only
  = Raise (KeyError "mapbox.center").
Proof. vm_compute. reflexivity. Qed.

(** ** The layers of the maps *)

(** C8 as stated fails on the ports section: its map draws the context
    layer (the large settlements) before the base layer (all ports). *)
Lemma ports_layers_not_in_claimed_order :
  exists map_ports title chart,
    update_ports_section Plane.formatter (Loaded Demo.bundle) 5000 None
    = Ok (map_ports, title, chart)
    /\ map layer_of (data map_ports)
       = [Some RegionLayer; Some ContextLayer; Some BaseLayer; Some SelectedLayer]
    /\ map layer_of (data map_ports)
       <> [Some RegionLayer; Some BaseLayer; Some ContextLayer; Some SelectedLayer].
Proof.
  do 3 eexists. split; [reflexivity|]. split; [reflexivity|]. discriminate.
Qed.

(** C8, amended. Map layer order: every map the roads section produces from
    loaded data has the layers region, base (all settlements, no hover
    information), selected (selected settlements, names on hover), in this
    order; every map the ports section produces from loaded data has the
    layers region, context (large settlements), base (all ports, no hover
    information), selected (selected ports, names on hover), in this
    order. *)
Theorem map_layer_order {E : GeoEngine} (F : Formatter) (b : Bundle E)
    (d_roads d_ports : Z) (rl_roads rl_ports : relayout E)
    (map_roads map_ports : figure E) (title_roads title_ports : string)
    (chart_roads chart_ports : figure E) :
  update_roads_section F (Loaded b) d_roads rl_roads
  = Ok (map_roads, title_roads, chart_roads) ->
  update_ports_section F (Loaded b) d_ports rl_ports
  = Ok (map_ports, title_ports, chart_ports) ->
  (map layer_of (data map_roads)
   = [Some RegionLayer; Some BaseLayer; Some SelectedLayer]
   /\ map plotted (data map_roads)
      = [None; Some (lat_lon (naselja_wgs84 b));
         Some (lat_lon (Roads.selected_wgs84 b d_roads))]
   /\ map trace_name (data map_roads)
      = ["Buffer Zone"; "All Settlements"; "Selected Settlements"])
  /\ (map layer_of (data map_ports)
      = [Some RegionLayer; Some ContextLayer; Some BaseLayer; Some SelectedLayer]
      /\ map plotted (data map_ports)
         = [None; Some (lat_lon (large_settlements_wgs84 b));
            Some (lat_lon (m_luke_wgs84 b));
            Some (lat_lon (Ports.selected_ports_wgs84 b d_ports))]
      /\ map trace_name (data map_ports)
         = ["Buffer Zone"; "Large Settlements (>10k)"; "All Ports"; "Selected Ports"]).
Proof.
  unfold update_roads_section, update_ports_section.
  destruct (viewport b rl_roads) as [[zr cr]|e]; simpl; [|discriminate].
  destruct (viewport b rl_ports) as [[zp cp]|e]; simpl; [|discriminate].
  intros [= <- _ _] [= <- _ _]. repeat split.
Qed.

Lemma map_layer_order_witness :
  exists map_roads map_ports : figure Plane.engine,
    map layer_of (data map_roads)
    = [Some RegionLayer; Some BaseLayer; Some SelectedLayer]
    /\ map layer_of (data map_ports)
       = [Some RegionLayer; Some ContextLayer; Some BaseLayer; Some SelectedLayer]
    /\ map trace_name (data map_ports)
       = ["Buffer Zone"; "Large Settlements (>10k)"; "All Ports"; "Selected Ports"].
Proof.
  pose proof (map_layer_order Plane.formatter Demo.bundle 500 5000 None
                Demo.zoomed _ _ _ _ _ _ eq_refl eq_refl) as [(Hr & _) (Hp & _ & Hn)].
  eexists _, _. split; [exact Hr|]. split; [exact Hp | exact Hn].
Defined.

(** * Further properties *)

(** ** The relayout value *)

Lemma viewport_cases {E : GeoEngine} (b : Bundle E) (rl : relayout E) :
  viewport b rl
  = if zoom_without_center rl then Raise (KeyError "mapbox.center")
    else Ok (default (default_view b) (supplied_view rl)).
Proof.
  destruct rl as [m|]; [|reflexivity].
  unfold zoom_without_center, supplied_view.
  destruct (m !! "mapbox.zoom") as [zoom|] eqn:Hz.
  - destruct (m !! "mapbox.center") as [center|] eqn:Hc.
    + apply viewport_echo; assumption.
    + apply viewport_zoom_without_center; [rewrite Hz; eauto | exact Hc].
  - apply viewport_default. intros m' [= <-]. exact Hz.
Qed.

(** The views of two relayout dicts that agree on the two keys read. *)
Lemma viewport_two_keys {E : GeoEngine} (b : Bundle E)
    (m1 m2 : gmap string (pyval (coord E))) :
  m1 !! "mapbox.zoom" = m2 !! "mapbox.zoom" ->
  m1 !! "mapbox.center" = m2 !! "mapbox.center" ->
  viewport b (Some m1) = viewport b (Some m2).
Proof.
  intros Hz Hc. rewrite !viewport_cases.
  unfold zoom_without_center, supplied_view. rewrite Hz, Hc. reflexivity.
Qed.

(** X1. On loaded data each callback fails in exactly one case: the relayout
    value has the key ['mapbox.zoom'] and not the key ['mapbox.center'];
    the failure is [KeyError('mapbox.center')].  In every other case it
    returns the map with the view set, the title and the chart. *)
Theorem callbacks_on_loaded_data {E : GeoEngine} (F : Formatter) (b : Bundle E)
    (d : Z) (rl : relayout E) :
  let view := default (default_view b) (supplied_view rl) in
  update_roads_section F (Loaded b) d rl
  = (if zoom_without_center rl then Raise (KeyError "mapbox.center")
     else Ok (update_layout (Roads.map_traces b d) (map_layout (fst view) (snd view)),
              Roads.title_string F b d, Roads.bar_fig b d))
  /\ update_ports_section F (Loaded b) d rl
     = (if zoom_without_center rl then Raise (KeyError "mapbox.center")
        else Ok (update_layout (Ports.map_traces b d) (map_layout (fst view) (snd view)),
                 Ports.title_string F b d, Ports.bar_fig_ports b d)).
Proof.
  intros view. unfold update_roads_section, update_ports_section.
  rewrite viewport_cases. fold view.
  destruct (zoom_without_center rl); [split; reflexivity|].
  destruct view as [zoom center]. split; reflexivity.
Qed.

(** X2. The callbacks read two keys of the relayout dict and nothing else: two
    dicts with the same ['mapbox.zoom'] and ['mapbox.center'] entries give
    the same outcome, whatever else they hold, and a missing relayout value
    gives the outcome of the empty dict. *)
Theorem relayout_other_keys_ignored {E : GeoEngine} (F : Formatter) (st : Store E)
    (d : Z) (m1 m2 : gmap string (pyval (coord E))) :
  m1 !! "mapbox.zoom" = m2 !! "mapbox.zoom" ->
  m1 !! "mapbox.center" = m2 !! "mapbox.center" ->
  update_roads_section F st d (Some m1) = update_roads_section F st d (Some m2)
  /\ update_ports_section F st d (Some m1) = update_ports_section F st d (Some m2)
  /\ update_roads_section F st d None = update_roads_section F st d (Some ∅)
  /\ update_ports_section F st d None = update_ports_section F st d (Some ∅).
Proof.
  intros Hz Hc. destruct st as [b|filename]; [|repeat split].
  unfold update_roads_section, update_ports_section.
  rewrite (viewport_two_keys b m1 m2 Hz Hc). repeat split.
Qed.

Lemma relayout_other_keys_ignored_witness :
  update_roads_section Plane.formatter (Loaded Demo.bundle) 500 Demo.zoomed
  = update_roads_section Plane.formatter (Loaded Demo.bundle) 500 Cases.zoomed_and_turned.
Proof.
  refine (proj1 (relayout_other_keys_ignored Plane.formatter (Loaded Demo.bundle) 500
                   _ _ _ _)); vm_compute; reflexivity.
Defined.

(** X3. Panning and zooming change the view and nothing else: two runs of a
    callback on the same store and distance that both return give the same
    title, the same chart, the same map traces and the same map layout
    apart from zoom and centre. *)
Theorem relayout_changes_only_the_view {E : GeoEngine} (F : Formatter)
    (st : Store E) (d_roads d_ports : Z) (rl1 rl2 : relayout E)
    (mr1 mr2 mp1 mp2 cr1 cr2 cp1 cp2 : figure E) (tr1 tr2 tp1 tp2 : string) :
  update_roads_section F st d_roads rl1 = Ok (mr1, tr1, cr1) ->
  update_roads_section F st d_roads rl2 = Ok (mr2, tr2, cr2) ->
  update_ports_section F st d_ports rl1 = Ok (mp1, tp1, cp1) ->
  update_ports_section F st d_ports rl2 = Ok (mp2, tp2, cp2) ->
  (tr1 = tr2 /\ cr1 = cr2 /\ data mr1 = data mr2
   /\ without_view (layout mr1) = without_view (layout mr2))
  /\ (tp1 = tp2 /\ cp1 = cp2 /\ data mp1 = data mp2
      /\ without_view (layout mp1) = without_view (layout mp2)).
Proof.
  destruct st as [b|filename].
  - unfold update_roads_section, update_ports_section.
    destruct (viewport b rl1) as [[z1 c1]|e1]; simpl; [|discriminate].
    destruct (viewport b rl2) as [[z2 c2]|e2]; simpl; [|discriminate].
    intros [= <- <- <-] [= <- <- <-] [= <- <- <-] [= <- <- <-]. repeat split.
  - simpl. intros [= <- <- <-] [= <- <- <-] [= <- <- <-] [= <- <- <-]. repeat split.
Qed.

Lemma relayout_changes_only_the_view_witness :
  exists mr1 mr2 : figure Plane.engine,
    data mr1 = data mr2
    /\ without_view (layout mr1) = without_view (layout mr2)
    /\ view_of mr1 <> view_of mr2.
Proof.
  pose proof (relayout_changes_only_the_view Plane.formatter (Loaded Demo.bundle)
                500 5000 None Demo.zoomed _ _ _ _ _ _ _ _ _ _ _ _
                eq_refl eq_refl eq_refl eq_refl) as [(_ & _ & Hdata & Hlayout) _].
  eexists _, _. split; [exact Hdata|]. split; [exact Hlayout|]. discriminate.
Defined.

(** ** The selected rows *)

Section SelectionFacts.
Context {E : GeoEngine} {A : Type}.

Lemma filter_sublist (f : GeoRow A (geom E) -> bool) (l : GeoDataFrame E A) :
  List.filter f l `sublist_of` l.
Proof.
  induction l as [|a l IH]; simpl; [constructor|].
  destruct (f a); [apply sublist_skip | apply sublist_cons]; exact IH.
Qed.

Lemma drop_duplicates_seen_sublist (key : A -> string) (df : GeoDataFrame E A) :
  forall seen, drop_duplicates_seen key seen df `sublist_of` df.
Proof.
  induction df as [|r rest IH]; intros seen; simpl; [constructor|].
  destruct (bool_decide (key (attrs r) ∈ seen));
    [apply sublist_cons | apply sublist_skip]; apply IH.
Qed.

(** The keys of the de-duplicated frame are the keys of the frame that were
    not seen before. *)
Lemma drop_duplicates_seen_keys (key : A -> string) (df : GeoDataFrame E A) :
  forall seen k,
    k ∈ map (fun r => key (attrs r)) (drop_duplicates_seen key seen df)
    <-> k ∈ map (fun r => key (attrs r)) df /\ k ∉ seen.
Proof.
  induction df as [|r rest IH]; intros seen k; simpl.
  - rewrite elem_of_nil. tauto.
  - destruct (bool_decide_reflect (key (attrs r) ∈ seen)) as [Hseen|Hfresh].
    + rewrite IH, elem_of_cons. split; [tauto|].
      intros [[->|Hk] Hn]; [contradiction|tauto].
    + simpl. rewrite !elem_of_cons, IH, not_elem_of_cons. split.
      * intros [->|(Hk & Hne & Hn)]; tauto.
      * intros [[->|Hk] Hn]; [tauto|].
        destruct (decide (k = key (attrs r))); tauto.
Qed.

Lemma drop_duplicates_length (key : A -> string) (df : GeoDataFrame E A) :
  length (drop_duplicates key df)
  = length (remove_dups (map (fun r => key (attrs r)) df)).
Proof.
  rewrite <- (length_map (fun r => key (attrs r)) (drop_duplicates key df)).
  apply Permutation_length, NoDup_Permutation.
  - apply drop_duplicates_NoDup.
  - apply NoDup_remove_dups.
  - intros k. unfold drop_duplicates.
    rewrite drop_duplicates_seen_keys, elem_of_remove_dups.
    pose proof (not_elem_of_nil k). tauto.
Qed.

(** A frame without a repeated key is left as it is. *)
Lemma drop_duplicates_seen_distinct (key : A -> string) (df : GeoDataFrame E A) :
  forall seen,
    NoDup (map (fun r => key (attrs r)) df) ->
    (forall k, k ∈ map (fun r => key (attrs r)) df -> k ∉ seen) ->
    drop_duplicates_seen key seen df = df.
Proof.
  induction df as [|r rest IH]; intros seen Hnd Hseen; simpl; [reflexivity|].
  simpl in Hnd. apply NoDup_cons in Hnd as [Hr Hnd].
  rewrite bool_decide_false by (apply Hseen; simpl; apply list_elem_of_here).
  f_equal. apply IH; [exact Hnd|].
  intros k Hk. apply not_elem_of_cons. split.
  - intros ->. contradiction.
  - apply Hseen. simpl. apply list_elem_of_further, Hk.
Qed.

Lemma filter_keys_NoDup (key : A -> string) (f : GeoRow A (geom E) -> bool)
    (df : GeoDataFrame E A) :
  NoDup (map (fun r => key (attrs r)) df) ->
  NoDup (map (fun r => key (attrs r)) (List.filter f df)).
Proof.
  intros Hnd. eapply sublist_NoDup; [exact Hnd|]. clear Hnd.
  induction df as [|a df IH]; simpl; [constructor|].
  destruct (f a); simpl; [apply sublist_skip | apply sublist_cons]; exact IH.
Qed.
End SelectionFacts.

(** X4. Against the single dissolved region the join repeats no row and invents
    none: the selected settlements are the rows of the settlement table
    within the zone, in table order, and so are the joined ports before the
    duplicates are dropped. *)
Theorem join_selects_rows_within {E : GeoEngine} (b : Bundle E) (d : Z) :
  Roads.selected_naselja b d
  = List.filter (in_zone (Roads.dissolved_buffer b d)) (naselja_gdf b)
  /\ Roads.selected_naselja b d `sublist_of` naselja_gdf b
  /\ Ports.joined_ports b d
     = List.filter (in_zone (Ports.dissolved_buffer b d)) (m_luke_gdf b)
  /\ Ports.joined_ports b d `sublist_of` m_luke_gdf b.
Proof.
  rewrite roads_selected_filter, ports_joined_filter.
  repeat split; apply filter_sublist.
Qed.

(** X5. The selected ports are rows of the port table, in table order; each is
    within the zone; and every port of the table within the zone has its
    name among the selected ports. *)
Theorem ports_selected_rows {E : GeoEngine} (b : Bundle E) (d : Z) :
  Ports.selected_ports b d `sublist_of` m_luke_gdf b
  /\ (forall r, In r (Ports.selected_ports b d) ->
                in_zone (Ports.dissolved_buffer b d) r = true)
  /\ (forall r, In r (m_luke_gdf b) ->
                in_zone (Ports.dissolved_buffer b d) r = true ->
                exists r', In r' (Ports.selected_ports b d)
                           /\ NAZIV (attrs r') = NAZIV (attrs r)).
Proof.
  unfold Ports.selected_ports. rewrite ports_joined_filter.
  set (zone := Ports.dissolved_buffer b d).
  assert (Hsub : drop_duplicates NAZIV (List.filter (in_zone zone) (m_luke_gdf b))
                 `sublist_of` List.filter (in_zone zone) (m_luke_gdf b))
    by apply drop_duplicates_seen_sublist.
  split; [|split].
  - etrans; [exact Hsub | apply filter_sublist].
  - intros r Hr. apply list_elem_of_In in Hr.
    pose proof (sublist_subseteq _ _ Hsub r Hr) as Hin.
    apply list_elem_of_In, filter_In in Hin. tauto.
  - intros r Hr Hzone.
    assert (Hk : NAZIV (attrs r)
                 ∈ map (fun r => NAZIV (attrs r))
                       (drop_duplicates NAZIV (List.filter (in_zone zone) (m_luke_gdf b)))).
    { unfold drop_duplicates. apply drop_duplicates_seen_keys.
      split; [|apply not_elem_of_nil].
      apply list_elem_of_In, in_map_iff. exists r. split; [reflexivity|].
      apply filter_In. tauto. }
    apply list_elem_of_In, in_map_iff in Hk as (r' & Hname & Hr').
    exists r'. tauto.
Qed.

(** X6. The inside count of the ports section is the number of distinct names
    among the ports within the zone. *)
Theorem ports_inside_count_distinct_names {E : GeoEngine} (b : Bundle E) (d : Z) :
  Ports.count_in_buffer b d
  = len (remove_dups
           (map (fun r => NAZIV (attrs r))
                (List.filter (in_zone (Ports.dissolved_buffer b d)) (m_luke_gdf b)))).
Proof.
  unfold Ports.count_in_buffer, Ports.selected_ports, len.
  rewrite ports_joined_filter, drop_duplicates_length. reflexivity.
Qed.

Lemma ports_inside_le_within {E : GeoEngine} (b : Bundle E) (d : Z) :
  Ports.count_in_buffer b d
  <= len (List.filter (in_zone (Ports.dissolved_buffer b d)) (m_luke_gdf b)).
Proof.
  unfold Ports.count_in_buffer, Ports.selected_ports, len.
  rewrite ports_joined_filter. apply inj_le, sublist_length.
  apply drop_duplicates_seen_sublist.
Qed.

(** X7. Both counts of both sections lie between zero and the number of rows of
    the table, and the inside count of the ports section is at most the
    number of ports within the zone. *)
Theorem counts_within_bounds {E : GeoEngine} (b : Bundle E) (d : Z) :
  (0 <= Roads.count_in_buffer b d <= len (naselja b)
   /\ 0 <= Roads.count_out_buffer b d <= len (naselja b))
  /\ (0 <= Ports.count_in_buffer b d
           <= len (List.filter (in_zone (Ports.dissolved_buffer b d)) (m_luke_gdf b))
      /\ Ports.count_in_buffer b d <= len (m_luke b)
      /\ 0 <= Ports.count_out_buffer b d <= len (m_luke b)).
Proof.
  unfold Roads.count_out_buffer, Roads.count_in_buffer,
    Ports.count_out_buffer, Ports.count_in_buffer, Ports.selected_ports, len.
  rewrite roads_selected_filter, ports_joined_filter.
  set (zr := Roads.dissolved_buffer b d). set (zp := Ports.dissolved_buffer b d).
  pose proof (filter_length_le (in_zone zr) (naselja_gdf b)) as Hr.
  pose proof (filter_length_le (in_zone zp) (m_luke_gdf b)) as Hp.
  pose proof (ports_inside_le_within b d) as Hd.
  unfold Ports.count_in_buffer, Ports.selected_ports, len in Hd.
  rewrite ports_joined_filter in Hd. fold zp in Hd.
  assert (Hn : length (naselja_gdf b) = length (naselja b)) by apply length_map.
  assert (Hm : length (m_luke_gdf b) = length (m_luke b)) by apply length_map.
  lia.
Qed.

(** X8. The outside count of the ports section is the number of ports outside
    the zone plus the number of rows the de-duplication dropped. *)
Theorem ports_outside_count_decomposition {E : GeoEngine} (b : Bundle E) (d : Z) :
  let zone := Ports.dissolved_buffer b d in
  let dropped := len (List.filter (in_zone zone) (m_luke_gdf b))
                 - Ports.count_in_buffer b d in
  0 <= dropped
  /\ Ports.count_out_buffer b d
     = len (List.filter (fun r => negb (in_zone zone r)) (m_luke_gdf b)) + dropped.
Proof.
  intros zone dropped. subst dropped.
  pose proof (ports_inside_le_within b d) as Hin.
  fold zone in Hin. split; [lia|].
  unfold Ports.count_out_buffer, len.
  pose proof (filter_split_length (in_zone zone) (m_luke_gdf b)). lia.
Qed.

Lemma m_luke_gdf_names {E : GeoEngine} (b : Bundle E) :
  map (fun r => NAZIV (attrs r)) (m_luke_gdf b) = map NAZIV (m_luke b).
Proof. unfold m_luke_gdf. rewrite map_map. reflexivity. Qed.

(** X9. When no name repeats in the port table, the de-duplication drops
    nothing: the selected ports are the ports within the zone, the outside
    count is the number of ports outside it, and the two counts add up to
    the number of ports of the table de-duplicated by name. *)
Theorem ports_distinct_names_conserve {E : GeoEngine} (b : Bundle E) (d : Z) :
  NoDup (map NAZIV (m_luke b)) ->
  let zone := Ports.dissolved_buffer b d in
  Ports.selected_ports b d = List.filter (in_zone zone) (m_luke_gdf b)
  /\ Ports.count_out_buffer b d
     = len (List.filter (fun r => negb (in_zone zone r)) (m_luke_gdf b))
  /\ Ports.count_in_buffer b d + Ports.count_out_buffer b d
     = len (drop_duplicates NAZIV (m_luke_gdf b)).
Proof.
  intros Hnd zone. rewrite <- m_luke_gdf_names in Hnd.
  assert (Hsel : Ports.selected_ports b d = List.filter (in_zone zone) (m_luke_gdf b)).
  { unfold Ports.selected_ports. rewrite ports_joined_filter. fold zone.
    apply drop_duplicates_seen_distinct.
    - apply filter_keys_NoDup, Hnd.
    - intros k _. apply not_elem_of_nil. }
  assert (Hall : drop_duplicates NAZIV (m_luke_gdf b) = m_luke_gdf b).
  { apply drop_duplicates_seen_distinct; [exact Hnd|].
    intros k _. apply not_elem_of_nil. }
  unfold Ports.count_out_buffer, Ports.count_in_buffer.
  rewrite Hsel, Hall. unfold len.
  pose proof (filter_split_length (in_zone zone) (m_luke_gdf b)).
  repeat split; lia.
Qed.

Lemma ports_distinct_names_conserve_witness :
  Ports.count_in_buffer Cases.distinct_ports 5000
  + Ports.count_out_buffer Cases.distinct_ports 5000
  = len (drop_duplicates NAZIV (m_luke_gdf Cases.distinct_ports)).
Proof.
  refine (proj2 (proj2 (ports_distinct_names_conserve Cases.distinct_ports 5000 _))).
  apply (bool_decide_unpack _). vm_compute. exact I.
Defined.

(** ** Aggregates of the rows outside the zone *)

Lemma wrap64_sub (a b : Z) : wrap64 (wrap64 a - wrap64 b) = wrap64 (a - b).
Proof.
  unfold wrap64.
  replace ((a + 2 ^ 63) mod 2 ^ 64 - 2 ^ 63 - ((b + 2 ^ 63) mod 2 ^ 64 - 2 ^ 63) + 2 ^ 63)
    with ((a + 2 ^ 63) mod 2 ^ 64 - (b + 2 ^ 63) mod 2 ^ 64 + 2 ^ 63) by lia.
  f_equal.
  rewrite <- Zplus_mod_idemp_l, Zminus_mod_idemp_l, Zminus_mod_idemp_r, Zplus_mod_idemp_l.
  f_equal. lia.
Qed.

(** X10. The outside aggregates of the roads section are the aggregates of the
    settlements that are not within the zone: their number, and the sum of
    their populations in the 64-bit arithmetic of the column. *)
Theorem roads_outside_is_complement {E : GeoEngine} (b : Bundle E) (d : Z) :
  let outside :=
    List.filter (fun r => negb (in_zone (Roads.dissolved_buffer b d) r))
                (naselja_gdf b) in
  Roads.count_out_buffer b d = len outside
  /\ Roads.pop_out_buffer b d = sum64 (map (fun r => BR_ST_01 (attrs r)) outside).
Proof.
  intros outside. split; [apply roads_count_out_rows|].
  unfold Roads.pop_out_buffer, Roads.pop_in_buffer, sub64.
  rewrite roads_selected_filter, !sum64_total, wrap64_sub. f_equal.
  pose proof (total_filter_split (in_zone (Roads.dissolved_buffer b d))
                (fun r => BR_ST_01 (attrs r)) (naselja_gdf b)).
  fold outside in H. lia.
Qed.

(** ** Monotonicity of the other aggregates *)

Section MonotoneFacts.
Context {E : GeoEngine} (Hmono : buffer_monotone E).

Lemma zone_grows {A B : Type} (sources : GeoDataFrame E A) (d1 d2 : Z)
    (r : GeoRow B (geom E)) :
  0 <= d1 -> d1 <= d2 ->
  in_zone (union_all E (map (fun s => buffer E (geometry s) d1) sources)) r = true ->
  in_zone (union_all E (map (fun s => buffer E (geometry s) d2) sources)) r = true.
Proof.
  intros H0 Hle. unfold in_zone.
  rewrite <- !(map_map geometry (fun g => buffer E g _)).
  apply Hmono; assumption.
Qed.

End MonotoneFacts.




(** X12. Under the same guarantee, for [0 <= d1 <= d2] the inside count of the
    ports section does not shrink and its outside count does not grow. *)
Theorem ports_counts_monotone {E : GeoEngine} (b : Bundle E) (d1 d2 : Z) :
  buffer_monotone E ->
  0 <= d1 -> d1 <= d2 ->
  Ports.count_in_buffer b d1 <= Ports.count_in_buffer b d2
  /\ Ports.count_out_buffer b d2 <= Ports.count_out_buffer b d1.
Proof.
  intros Hmono H0 Hle.
  assert (Hin : Ports.count_in_buffer b d1 <= Ports.count_in_buffer b d2).
  { unfold Ports.count_in_buffer, Ports.selected_ports, len.
    rewrite !ports_joined_filter, !drop_duplicates_length.
    apply inj_le, submseteq_length, NoDup_submseteq; [apply NoDup_remove_dups|].
    intros k. rewrite !elem_of_remove_dups, !list_elem_of_In, !in_map_iff.
    intros (r & Hk & Hr). exists r. split; [exact Hk|].
    apply filter_In in Hr as [Hr Hz]. apply filter_In. split; [exact Hr|].
    revert Hz. apply (zone_grows Hmono (large_settlements b)); assumption. }
  split; [exact Hin|]. unfold Ports.count_out_buffer. lia.
Qed.

Lemma ports_counts_monotone_witness :
  Ports.count_in_buffer Demo.bundle 150 <= Ports.count_in_buffer Demo.bundle 5000
  /\ Ports.count_out_buffer Demo.bundle 5000 <= Ports.count_out_buffer Demo.bundle 150.
Proof.
  apply (ports_counts_monotone Demo.bundle 150 5000 plane_buffer_monotone); lia.
Defined.

(** ** What each section depends on *)

Section RoadsInputs.
Context {E : GeoEngine} (b b' : Bundle E).
Hypothesis Haid : AID b' = AID b.
Hypothesis Hnaselja : naselja b' = naselja b.

Lemma roads_inputs_gdf : naselja_gdf b' = naselja_gdf b.
Proof. unfold naselja_gdf. rewrite Hnaselja. reflexivity. Qed.

Lemma roads_inputs_zone (d : Z) : Roads.dissolved_gdf b' d = Roads.dissolved_gdf b d.
Proof.
  unfold Roads.dissolved_gdf, Roads.dissolved_buffer, Roads.buffer_polygons.
  rewrite Haid. reflexivity.
Qed.

Lemma roads_inputs_selected (d : Z) :
  Roads.selected_naselja b' d = Roads.selected_naselja b d.
Proof.
  unfold Roads.selected_naselja. rewrite roads_inputs_gdf, roads_inputs_zone.
  reflexivity.
Qed.

Lemma roads_inputs_viewport (rl : relayout E) : viewport b' rl = viewport b rl.
Proof.
  unfold viewport, map_center_lat, map_center_lon. rewrite Haid. reflexivity.
Qed.

Lemma roads_inputs_outputs (F : Formatter) (d : Z) :
  Roads.map_traces b' d = Roads.map_traces b d
  /\ Roads.title_string F b' d = Roads.title_string F b d
  /\ Roads.bar_fig b' d = Roads.bar_fig b d.
Proof.
  unfold Roads.map_traces, Roads.title_string, Roads.bar_fig, Roads.buffer_wgs84,
    Roads.selected_wgs84, Roads.pop_out_buffer, Roads.pop_in_buffer,
    Roads.count_out_buffer, Roads.count_in_buffer, naselja_wgs84.
  rewrite roads_inputs_selected, roads_inputs_zone, roads_inputs_gdf.
  repeat split.
Qed.
End RoadsInputs.

Section PortsInputs.
Context {E : GeoEngine} (b b' : Bundle E).
Hypothesis Hlarge : large_settlements b' = large_settlements b.
Hypothesis Hports : m_luke b' = m_luke b.

Lemma ports_inputs_gdf : m_luke_gdf b' = m_luke_gdf b.
Proof. unfold m_luke_gdf. rewrite Hports. reflexivity. Qed.

Lemma ports_inputs_zone (d : Z) : Ports.dissolved_gdf b' d = Ports.dissolved_gdf b d.
Proof.
  unfold Ports.dissolved_gdf, Ports.dissolved_buffer, Ports.buffer_polygons.
  rewrite Hlarge. reflexivity.
Qed.

Lemma ports_inputs_selected (d : Z) :
  Ports.selected_ports b' d = Ports.selected_ports b d.
Proof.
  unfold Ports.selected_ports, Ports.joined_ports.
  rewrite ports_inputs_gdf, ports_inputs_zone. reflexivity.
Qed.

Lemma ports_inputs_outputs (F : Formatter) (d : Z) :
  Ports.map_traces b' d = Ports.map_traces b d
  /\ Ports.title_string F b' d = Ports.title_string F b d
  /\ Ports.bar_fig_ports b' d = Ports.bar_fig_ports b d.
Proof.
  unfold Ports.map_traces, Ports.title_string, Ports.bar_fig_ports, Ports.buffer_wgs84,
    Ports.selected_ports_wgs84, Ports.count_out_buffer, Ports.count_in_buffer,
    large_settlements_wgs84, m_luke_wgs84.
  rewrite ports_inputs_selected, ports_inputs_zone, ports_inputs_gdf, Hlarge.
  repeat split.
Qed.
End PortsInputs.

(** X13. The roads section reads the roads of category 1 and 3 and the
    settlement table, and nothing else: two data sets with the same roads of
    these categories and the same settlements give the same outcome of the
    roads callback, whatever their other roads and their ports are. *)
Theorem roads_section_inputs {E : GeoEngine} (F : Formatter) (b b' : Bundle E)
    (d : Z) (rl : relayout E) :
  AID b' = AID b ->
  naselja b' = naselja b ->
  update_roads_section F (Loaded b') d rl = update_roads_section F (Loaded b) d rl.
Proof.
  intros Haid Hnaselja. unfold update_roads_section.
  rewrite (roads_inputs_viewport b b' Haid).
  destruct (roads_inputs_outputs b b' Haid Hnaselja F d) as (-> & -> & ->).
  reflexivity.
Qed.

Lemma roads_section_inputs_witness :
  update_roads_section Plane.formatter (Loaded Cases.motorway_only) 500 None
  = update_roads_section Plane.formatter (Loaded Demo.bundle) 500 None.
Proof.
  apply (roads_section_inputs Plane.formatter Demo.bundle Cases.motorway_only);
    reflexivity.
Defined.

(** X14. The ports section takes its traces, its title and its chart from the
    settlements with more than 10000 inhabitants and the port table alone;
    the roads enter only through the default centre of the map.  Two data
    sets with the same large settlements and the same ports give the same
    traces, title and chart, and the same outcome of the ports callback
    when their roads of category 1 and 3 agree as well. *)
Theorem ports_section_inputs {E : GeoEngine} (F : Formatter) (b b' : Bundle E)
    (d : Z) :
  large_settlements b' = large_settlements b ->
  m_luke b' = m_luke b ->
  Ports.map_traces b' d = Ports.map_traces b d
  /\ Ports.title_string F b' d = Ports.title_string F b d
  /\ Ports.bar_fig_ports b' d = Ports.bar_fig_ports b d
  /\ (AID b' = AID b ->
      forall rl : relayout E,
        update_ports_section F (Loaded b') d rl
        = update_ports_section F (Loaded b) d rl).
Proof.
  intros Hlarge Hports.
  destruct (ports_inputs_outputs b b' Hlarge Hports F d) as (Hm & Ht & Hc).
  repeat split; try assumption.
  intros Haid rl. unfold update_ports_section.
  rewrite (roads_inputs_viewport b b' Haid), Hm, Ht, Hc. reflexivity.
Qed.

Lemma ports_section_inputs_witness :
  Ports.bar_fig_ports Cases.town_only 5000 = Ports.bar_fig_ports Demo.bundle 5000
  /\ update_ports_section Plane.formatter (Loaded Cases.town_only) 5000 None
     = update_ports_section Plane.formatter (Loaded Demo.bundle) 5000 None.
Proof.
  destruct (ports_section_inputs Plane.formatter Demo.bundle Cases.town_only 5000
              eq_refl eq_refl) as (_ & _ & Hc & Hcall).
  split; [exact Hc | apply Hcall; reflexivity].
Defined.

(** ** The markers on the maps and the bars of the charts *)

Lemma marker_count_plain {C G A : Type} (gdf : list A) (lat lon : A -> C)
    (mode hoverinfo name : string) (marker : Marker) :
  marker_count
    (Scattermapbox (G := G) (map lat gdf) (map lon gdf) mode marker None hoverinfo name)
  = Some (len gdf).
Proof.
  unfold marker_count, len. rewrite !length_map, Nat.eqb_refl. reflexivity.
Qed.

Lemma marker_count_named {C G A : Type} (gdf : list A) (lat lon : A -> C)
    (names : A -> string) (mode hoverinfo name : string) (marker : Marker) :
  marker_count
    (Scattermapbox (G := G) (map lat gdf) (map lon gdf) mode marker
       (Some (map names gdf)) hoverinfo name)
  = Some (len gdf).
Proof.
  unfold marker_count, len. rewrite !length_map, !Nat.eqb_refl. reflexivity.
Qed.

Lemma to_crs_length {E : GeoEngine} {A : Type} (gdf : GeoDataFrame E A) :
  len (to_crs gdf) = len gdf.
Proof. unfold len, to_crs. rewrite length_map. reflexivity. Qed.

(** X15. The maps and the charts agree: on every map a callback returns, each
    marker layer has as many latitudes as longitudes and hover texts; the
    layer of selected points has as many markers as the chart's inside
    count, and the layer of all points as many as the inside and outside
    counts together. *)
Theorem map_markers_match_counts {E : GeoEngine} (F : Formatter) (b : Bundle E)
    (d_roads d_ports : Z) (rl_roads rl_ports : relayout E)
    (map_roads map_ports : figure E) (title_roads title_ports : string)
    (chart_roads chart_ports : figure E) :
  update_roads_section F (Loaded b) d_roads rl_roads
  = Ok (map_roads, title_roads, chart_roads) ->
  update_ports_section F (Loaded b) d_ports rl_ports
  = Ok (map_ports, title_ports, chart_ports) ->
  map marker_count (data map_roads)
  = [ None;
      Some (Roads.count_in_buffer b d_roads + Roads.count_out_buffer b d_roads);
      Some (Roads.count_in_buffer b d_roads) ]
  /\ map marker_count (data map_ports)
     = [ None;
         Some (len (large_settlements b));
         Some (Ports.count_in_buffer b d_ports + Ports.count_out_buffer b d_ports);
         Some (Ports.count_in_buffer b d_ports) ].
Proof.
  unfold update_roads_section, update_ports_section.
  destruct (viewport b rl_roads) as [[zr cr]|e]; simpl; [|discriminate].
  destruct (viewport b rl_ports) as [[zp cp]|e]; simpl; [|discriminate].
  intros [= <- _ _] [= <- _ _]. split.
  - unfold Roads.map_traces, update_layout, add_trace, go_Figure.
    cbn [data app map].
    rewrite marker_count_plain, marker_count_named.
    unfold naselja_wgs84, Roads.selected_wgs84. rewrite !to_crs_length.
    unfold Roads.count_out_buffer, Roads.count_in_buffer.
    do 3 f_equal. f_equal. lia.
  - unfold Ports.map_traces, update_layout, add_trace, go_Figure.
    cbn [data app map].
    rewrite marker_count_plain, !marker_count_named.
    unfold large_settlements_wgs84, m_luke_wgs84, Ports.selected_ports_wgs84.
    rewrite !to_crs_length.
    unfold Ports.count_out_buffer, Ports.count_in_buffer.
    do 4 f_equal. f_equal. lia.
Qed.

Lemma map_markers_match_counts_witness :
  exists map_roads map_ports : figure Plane.engine,
    map marker_count (data map_roads) = [None; Some 3; Some 2]
    /\ map marker_count (data map_ports) = [None; Some 1; Some 3; Some 1].
Proof.
  pose proof (map_markers_match_counts Plane.formatter Demo.bundle 500 5000 None
                Demo.zoomed _ _ _ _ _ _ eq_refl eq_refl) as [Hr Hp].
  eexists _, _. split; [exact Hr | exact Hp].
Defined.

(** ** Empty tables and empty zones *)

(** X16. With an empty settlement table the roads section selects nothing and
    all four bars of its chart are zero; with an empty port table the ports
    section selects nothing and both bars of its chart are zero. *)
Theorem empty_tables_give_zero_bars {E : GeoEngine} (b : Bundle E) (d : Z) :
  (naselja b = [] ->
   Roads.selected_naselja b d = []
   /\ map bar_values (data (Roads.bar_fig b d)) = [[0; 0]; [0; 0]])
  /\ (m_luke b = [] ->
      Ports.selected_ports b d = []
      /\ map bar_values (data (Ports.bar_fig_ports b d)) = [[0; 0]]).
Proof.
  split; intros Hempty.
  - assert (Hsel : Roads.selected_naselja b d = []).
    { rewrite roads_selected_filter. unfold naselja_gdf. rewrite Hempty. reflexivity. }
    split; [exact Hsel|].
    unfold Roads.bar_fig, Roads.pop_out_buffer, Roads.pop_in_buffer,
      Roads.count_out_buffer, Roads.count_in_buffer.
    rewrite Hsel. unfold naselja_gdf. rewrite Hempty. reflexivity.
  - assert (Hsel : Ports.selected_ports b d = []).
    { unfold Ports.selected_ports. rewrite ports_joined_filter.
      unfold m_luke_gdf. rewrite Hempty. reflexivity. }
    split; [exact Hsel|].
    unfold Ports.bar_fig_ports, Ports.count_out_buffer, Ports.count_in_buffer.
    rewrite Hsel. unfold m_luke_gdf. rewrite Hempty. reflexivity.
Qed.

Lemma empty_tables_give_zero_bars_witness :
  map bar_values (data (Roads.bar_fig Cases.empty_tables 500)) = [[0; 0]; [0; 0]]
  /\ map bar_values (data (Ports.bar_fig_ports Cases.empty_tables 5000)) = [[0; 0]].
Proof.
  split.
  - apply (proj1 (empty_tables_give_zero_bars Cases.empty_tables 500)). reflexivity.
  - apply (proj2 (empty_tables_give_zero_bars Cases.empty_tables 5000)). reflexivity.
Defined.

Lemma filter_none {A : Type} (f : A -> bool) (l : list A) :
  (forall a, f a = false) -> List.filter f l = [].
Proof.
  intros Hf. induction l as [|a l IH]; simpl; [reflexivity|].
  rewrite Hf. exact IH.
Qed.

Lemma plane_empty_union : empty_union_contains_nothing Plane.engine.
Proof. intros p. destruct p; reflexivity. Qed.

(** X17. When the engine finds nothing within the union of no geometry: without
    a road of category 1 or 3 the roads section selects no settlement at any
    distance and counts every settlement as outside, and without a
    settlement of more than 10000 inhabitants the ports section selects no
    port and counts every port as outside. *)
Theorem no_buffer_source_selects_nothing {E : GeoEngine} (b : Bundle E) (d : Z) :
  empty_union_contains_nothing E ->
  (AID b = [] ->
   Roads.selected_naselja b d = []
   /\ Roads.count_in_buffer b d = 0
   /\ Roads.pop_in_buffer b d = 0
   /\ Roads.count_out_buffer b d = len (naselja b))
  /\ (large_settlements b = [] ->
      Ports.selected_ports b d = []
      /\ Ports.count_in_buffer b d = 0
      /\ Ports.count_out_buffer b d = len (m_luke b)).
Proof.
  intros Hnothing. split; intros Hnone.
  - assert (Hsel : Roads.selected_naselja b d = []).
    { rewrite roads_selected_filter. apply filter_none. intros r.
      unfold in_zone, Roads.dissolved_buffer, Roads.buffer_polygons.
      rewrite Hnone. apply Hnothing. }
    unfold Roads.count_out_buffer, Roads.count_in_buffer, Roads.pop_in_buffer.
    rewrite Hsel. unfold naselja_gdf, len. rewrite length_map. simpl.
    repeat split. lia.
  - assert (Hsel : Ports.selected_ports b d = []).
    { unfold Ports.selected_ports. rewrite ports_joined_filter.
      rewrite filter_none; [reflexivity|]. intros r.
      unfold in_zone, Ports.dissolved_buffer, Ports.buffer_polygons.
      rewrite Hnone. apply Hnothing. }
    unfold Ports.count_out_buffer, Ports.count_in_buffer.
    rewrite Hsel. unfold m_luke_gdf, len. rewrite length_map. simpl.
    repeat split. lia.
Qed.

Lemma no_buffer_source_selects_nothing_witness :
  Ports.selected_ports Cases.villages 50000 = []
  /\ Ports.count_out_buffer Cases.villages 50000 = 3.
Proof.
  destruct (proj2 (no_buffer_source_selects_nothing Cases.villages 50000
                     plane_empty_union) eq_refl) as (Hsel & _ & Hout).
  split; [exact Hsel | exact Hout].
Defined.

(** ** The sliders and the callback registration *)

Lemma py_range_ascending (start stop step : Z) :
  0 < step ->
  exists l, py_range start stop step = Some l
            /\ forall x, In x l <-> start <= x < stop /\ (x - start) mod step = 0.
Proof.
  intros Hstep. unfold py_range.
  rewrite (proj2 (Z.eqb_neq step 0)) by lia.
  rewrite (proj2 (Z.ltb_lt 0 step)) by lia.
  eexists. split; [reflexivity|]. intros x.
  rewrite in_map_iff. setoid_rewrite in_seq.
  destruct (Z.ltb_spec start stop) as [Hlt|Hge].
  - pose proof (Z.div_mod (stop - start + step - 1) step ltac:(lia)) as Hq.
    pose proof (Z.mod_pos_bound (stop - start + step - 1) step Hstep) as Hr.
    set (q := (stop - start + step - 1) / step) in *.
    assert (Hq0 : 0 <= q) by (apply Z.div_pos; lia).
    split.
    + intros (i & <- & Hi).
      assert (Hiq : Z.of_nat i < q) by lia.
      replace (start + Z.of_nat i * step - start) with (Z.of_nat i * step) by lia.
      rewrite Z.mod_mul by lia. split; [nia|reflexivity].
    + intros [[Hlo Hhi] Hmod].
      pose proof (Z.div_mod (x - start) step ltac:(lia)) as Hk.
      rewrite Hmod in Hk.
      assert (Hk0 : 0 <= (x - start) / step) by (apply Z.div_pos; lia).
      exists (Z.to_nat ((x - start) / step)). split; [lia|].
      split; [lia|]. simpl. nia.
  - split.
    + intros (i & _ & Hi). simpl in Hi. lia.
    + intros [[Hlo Hhi] _]. lia.
Qed.

(** The positions of a slider with a positive step are the values from its
    minimum to its maximum that lie on a step. *)
Lemma slider_positions_spec (min max step : Z) :
  0 < step ->
  forall x, In x (slider_positions min max step)
            <-> min <= x <= max /\ (x - min) mod step = 0.
Proof.
  intros Hstep x. unfold slider_positions.
  destruct (py_range_ascending min (max + 1) step Hstep) as (l & -> & Hl).
  simpl. rewrite Hl. split; intros [H1 H2]; (split; [lia|exact H2]).
Qed.

(** X18. The two sliders: each starts on one of its positions; every position a
    slider can send is a distance between [0] and its maximum; and the marks
    of the ports slider all lie on positions, while the roads slider, whose
    marks run up to 20000, has the marks 15000 and 20000 beyond its maximum
    of 10000. *)
Theorem slider_domains (F : Formatter) (format_div_1000 : Z -> string) :
  (slider_range (slider_roads F)
   = Some (0, 10000, 100, 500, [0; 5000; 10000; 15000; 20000])
   /\ In 500 (slider_positions 0 10000 100)
   /\ (forall v, In v (slider_positions 0 10000 100) -> 0 <= v <= 10000)
   /\ List.filter (fun k => negb (bool_decide (k ∈ slider_positions 0 10000 100)))
                  [0; 5000; 10000; 15000; 20000]
      = [15000; 20000])
  /\ (slider_range (slider_ports format_div_1000)
      = Some (0, 50000, 1000, 20000, [0; 10000; 20000; 30000; 40000; 50000])
      /\ In 20000 (slider_positions 0 50000 1000)
      /\ (forall v, In v (slider_positions 0 50000 1000) -> 0 <= v <= 50000)
      /\ Forall (fun k => In k (slider_positions 0 50000 1000))
                [0; 10000; 20000; 30000; 40000; 50000]).
Proof.
  split; (split; [reflexivity|]).
  - split; [apply slider_positions_spec; [lia|]; split; [lia|reflexivity]|].
    split; [intros v Hv; apply slider_positions_spec in Hv; lia|].
    vm_compute. reflexivity.
  - split; [apply slider_positions_spec; [lia|]; split; [lia|reflexivity]|].
    split; [intros v Hv; apply slider_positions_spec in Hv; lia|].
    repeat (apply List.Forall_cons;
            [apply slider_positions_spec; [lia|]; split; [lia|reflexivity]|]).
    apply List.Forall_nil.
Qed.

(** X19. The callback registration fits the page: the ids of the page are
    pairwise distinct; every output, input and state of the two callbacks
    names a component of the page and a property that component has; each
    callback has three outputs, as many as its function returns, one input
    and one state; and no output is written by both callbacks. *)
Theorem callback_wiring (F : Formatter) (format_div_1000 : Z -> string) :
  let page := identified (app_layout F format_div_1000) in
  let deps (cb : Callback) := (cb_outputs cb ++ cb_inputs cb ++ cb_states cb)%list in
  NoDup (map fst page)
  /\ forallb (resolves page) (deps roads_callback ++ deps ports_callback)%list = true
  /\ (length (cb_outputs roads_callback), length (cb_inputs roads_callback),
      length (cb_states roads_callback)) = (3, 1, 1)%nat
  /\ (length (cb_outputs ports_callback), length (cb_inputs ports_callback),
      length (cb_states ports_callback)) = (3, 1, 1)%nat
  /\ forall dep, In dep (cb_outputs roads_callback) ->
                 ~ In dep (cb_outputs ports_callback).
Proof.
  intros page deps. split; [|split; [|split; [|split]]].
  - apply (bool_decide_unpack _). vm_compute. exact I.
  - reflexivity.
  - reflexivity.
  - reflexivity.
  - intros dep Hr Hp. simpl in Hr, Hp.
    destruct Hr as [<-|[<-|[<-|[]]]];
      destruct Hp as [Hp|[Hp|[Hp|[]]]]; discriminate Hp.
Qed.
